(** * qoc: discrete-time Lindblad evolution and its GRAPE wrappers

    A shallow embedding of [qoc/core/lindbladdiscrete.py] and of
    [qoc/standard/costs/targetdensityinfidelity.py].

    Python floats and complex numbers are read as exact reals and exact
    complex numbers; ndarrays are nested lists whose elementwise operations
    check that both operands have the same shape; Python exceptions are the
    left summand of a result type; the objects that the code mutates
    (the reporter, the optimisation result) live in an explicit store that is
    threaded through every call and that survives an exception. *)

From Stdlib Require Import String.
From Stdlib Require Import Reals ZArith List Lia Lra Bool.
Import ListNotations.
Open Scope R_scope.

(** ** Python runtime: exceptions, sequencing, indexing *)

Module Py.

Inductive PyExn : Type :=
| ValueError
| TypeError
| IndexError
| ZeroDivisionError
| UnboundLocalError
| AttributeError.

(** The outcome of an expression: an exception, or a value. *)
Definition result (A : Type) : Type := (PyExn + A)%type.

Definition ret {A : Type} (a : A) : result A := inr a.
Definition raise {A : Type} (e : PyExn) : result A := inl e.

Definition bind {A B : Type} (c : result A) (k : A -> result B) : result B :=
  match c with
  | inl e => inl e
  | inr a => k a
  end.

(** [l[i]] for a Python integer [i]: a negative index counts from the end,
    anything outside [-len, len) raises IndexError. *)
Definition getitem {A : Type} (l : list A) (i : Z) : result A :=
  let n := Z.of_nat (length l) in
  let j := if (i <? 0)%Z then (n + i)%Z else i in
  if ((0 <=? j)%Z && (j <? n)%Z)%bool
  then match nth_error l (Z.to_nat j) with
       | Some a => ret a
       | None => raise IndexError
       end
  else raise IndexError.

(** [range(n)]: empty when [n <= 0]. *)
Definition range (n : Z) : list Z :=
  map Z.of_nat (seq 0 (Z.to_nat n)).

(** [divmod(a, b)]: floor division and the matching remainder. *)
Definition divmod (a b : Z) : result (Z * Z) :=
  if (b =? 0)%Z then raise ZeroDivisionError
  else ret ((a / b)%Z, (a mod b)%Z).

End Py.
Import Py.

Declare Scope py_scope.
Delimit Scope py_scope with py.
Notation "x <- c ;; k" := (bind c (fun x => k))
  (at level 61, c at next level, right associativity) : py_scope.
Notation "' p <- c ;; k" := (bind c (fun p => k))
  (at level 61, p pattern, c at next level, right associativity) : py_scope.
Open Scope py_scope.

(** ** Complex numbers over the reals *)

Record C : Type := mkC { Re : R; Im : R }.

Definition RtoC (x : R) : C := mkC x 0.
Definition Cadd (a b : C) : C := mkC (Re a + Re b) (Im a + Im b).
Definition Csub (a b : C) : C := mkC (Re a - Re b) (Im a - Im b).
Definition Cmul (a b : C) : C :=
  mkC (Re a * Re b - Im a * Im b) (Re a * Im b + Im a * Re b).
Definition Cconj (a : C) : C := mkC (Re a) (- Im a).
(** Division of a complex number by a real one. *)
Definition Cdivr (a : C) (x : R) : C := mkC (Re a / x) (Im a / x).
Definition Ci : C := mkC 0 1.
Definition C0 : C := RtoC 0.

(** ** ndarrays of rank one, two and three *)

Definition vec : Type := list C.
Definition mat : Type := list vec.
Definition batch : Type := list mat.

(** Elementwise combination of two arrays of the same length; operands of
    different lengths are a shape mismatch. *)
Fixpoint zip_with {A B X : Type} (f : A -> B -> result X)
    (l1 : list A) (l2 : list B) : result (list X) :=
  match l1, l2 with
  | [], [] => ret []
  | a :: l1', b :: l2' =>
      x <- f a b ;;
      xs <- zip_with f l1' l2' ;;
      ret (x :: xs)
  | _, _ => raise ValueError
  end.

Definition vadd : vec -> vec -> result vec :=
  zip_with (fun a b => ret (Cadd a b)).
Definition vsub : vec -> vec -> result vec :=
  zip_with (fun a b => ret (Csub a b)).
Definition madd : mat -> mat -> result mat := zip_with vadd.
Definition msub : mat -> mat -> result mat := zip_with vsub.
Definition badd : batch -> batch -> result batch := zip_with madd.

Definition vscale (c : C) (v : vec) : vec := map (Cmul c) v.
Definition mscale (c : C) (m : mat) : mat := map (vscale c) m.
Definition bscale (c : C) (b : batch) : batch := map (mscale c) b.

(** An array divided by a real scalar. *)
Definition bdivr (b : batch) (x : R) : batch :=
  map (map (map (fun z => Cdivr z x))) b.

(** [zeros_like]. *)
Definition bzeros (b : batch) : batch := map (map (map (fun _ => C0))) b.

Definition vsum (v : vec) : C := fold_left Cadd v C0.
Definition dot (u v : vec) : C :=
  vsum (map (fun '(a, b) => Cmul a b) (combine u v)).

Fixpoint transpose_cols (n : nat) (m : mat) : mat :=
  match n with
  | O => []
  | S k => map (fun r => hd C0 r) m :: transpose_cols k (map (@tl C) m)
  end.

Definition transpose (m : mat) : mat := transpose_cols (length (hd [] m)) m.

(** Matrix product; the inner dimensions have to agree. *)
Definition matmul (a b : mat) : result mat :=
  if forallb (fun row => Nat.eqb (length row) (length b)) a
  then ret (map (fun row => map (dot row) (transpose b)) a)
  else raise ValueError.

Definition conjugate_transpose (m : mat) : mat :=
  map (map Cconj) (transpose m).

Definition mtrace (m : mat) : C :=
  vsum (map (fun '(i, r) => nth i r C0) (combine (seq 0 (length m)) m)).

Definition mzeros (m : mat) : mat := map (map (fun _ => C0)) m.

(** A function applied to every element of a list, stopping at the first
    exception. *)
Fixpoint map_result {A B : Type} (f : A -> result B) (l : list A)
  : result (list B) :=
  match l with
  | [] => ret []
  | a :: l' => b <- f a ;; bs <- map_result f l' ;; ret (b :: bs)
  end.

Fixpoint fold_result {A B : Type} (f : B -> A -> result B) (l : list A)
    (acc : B) : result B :=
  match l with
  | [] => ret acc
  | a :: l' => acc' <- f acc a ;; fold_result f l' acc'
  end.

(** ** The collaborators of [qoc.models], [qoc.core.common], [qoc.standard] *)

Module Models.

(** Modelled from the spec: the enum [InterpolationPolicy] of [qoc.models]
    is not part of the sources at hand; the spec names LINEAR as the only
    supported policy and any other policy as a configuration failure. *)
Inductive InterpolationPolicy : Type :=
| LINEAR
| UNSUPPORTED (tag : nat).

(** Modelled from the spec: the enum [OperationPolicy] of [qoc.models]
    (compute backend policy: CPU, GPU or sparse). *)
Inductive OperationPolicy : Type := CPU | GPU | SPARSE.

(** Modelled from the spec: [interpolate_linear] of [qoc.models] is missing.
    For left and right control sets [y1], [y2] defined at times [x1], [x2]
    the value at time [x3] is [y1 + (x3 - x1)/(x2 - x1) * (y2 - y1)]; the
    argument order is the one of the call in
    [_evolve_step_lindblad_discrete].  Dividing by a zero time span raises. *)
Definition interpolate_linear (x1 x2 x3 : R) (y1 y2 : vec) : result vec :=
  if Req_dec_T (x2 - x1) 0 then raise ZeroDivisionError
  else
    d <- vsub y2 y1 ;;
    vadd y1 (vscale (RtoC ((x3 - x1) / (x2 - x1))) d).

Definition commutator (a b : mat) : result mat :=
  ab <- matmul a b ;; ba <- matmul b a ;; msub ab ba.

Definition anticommutator (a b : mat) : result mat :=
  ab <- matmul a b ;; ba <- matmul b a ;; madd ab ba.

(** [g * (L rho L^dagger - 1/2 {L^dagger L, rho})]. *)
Definition dissipator (g : C) (L rho : mat) : result mat :=
  let Ld := conjugate_transpose L in
  lr <- matmul L rho ;;
  lrl <- matmul lr Ld ;;
  ll <- matmul Ld L ;;
  ac <- anticommutator ll rho ;;
  d <- msub lrl (mscale (RtoC (1 / 2)) ac) ;;
  ret (mscale g d).

(** The generator for one density of the batch. *)
Definition lindbladian (g : option vec) (h : option mat)
    (l : option (list mat)) (rho : mat) : result mat :=
  unitary <- match h with
             | None => ret (mzeros rho)
             | Some H =>
                 c <- commutator H rho ;;
                 ret (mscale (Cmul (RtoC (-1)) Ci) c)
             end ;;
  incoherent <- match g, l with
                | Some g, Some l =>
                    terms <- zip_with (fun gk Lk => dissipator gk Lk rho) g l ;;
                    fold_result madd terms (mzeros rho)
                | _, _ => ret (mzeros rho)
                end ;;
  madd unitary incoherent.

(** Modelled from the spec: [get_lindbladian] of [qoc.models] is missing.
    For every density of the batch it is
    [-i[H, rho] + sum_k g_k (L_k rho L_k^dagger - 1/2 {L_k^dagger L_k, rho})],
    the commutator term omitted when H is absent, the sum empty when there
    are no dissipators, and the zero matrix when both are absent. *)
Definition get_lindbladian (densities : batch) (g : option vec)
    (h : option mat) (l : option (list mat)) (operation_policy : OperationPolicy)
  : result batch :=
  map_result (lindbladian g h l) densities.

(** Modelled from the spec: [strip_controls] of [qoc.core.common] is
    missing.  Real controls are reshaped to a flat vector; complex controls
    become a flat real vector of double length, the real components
    followed by the imaginary components. *)
Definition strip_controls (complex_controls : bool) (controls : list vec)
  : list R :=
  let flat := concat controls in
  if complex_controls then map Re flat ++ map Im flat else map Re flat.

Fixpoint reshape (rows cols : nat) (flat : vec) : list vec :=
  match rows with
  | O => []
  | S r => firstn cols flat :: reshape r cols (skipn cols flat)
  end.

(** Modelled from the spec: [slap_controls] of [qoc.core.common] is
    missing.  It is the inverse of [strip_controls]: complex values are
    rebuilt from the two halves when the controls are complex, and the flat
    vector is reshaped to the target shape; a flat vector of the wrong
    size is a shape error. *)
Definition slap_controls (complex_controls : bool) (flat : list R)
    (controls_shape : nat * nat) : result (list vec) :=
  let '(rows, cols) := controls_shape in
  cflat <- (if complex_controls
            then
              if Nat.even (length flat)
              then
                let half := Nat.div (length flat) 2 in
                ret (map (fun '(x, y) => mkC x y)
                         (combine (firstn half flat) (skipn half flat)))
              else raise ValueError
            else ret (map RtoC flat)) ;;
  if Nat.eqb (length cflat) (rows * cols)
  then ret (reshape rows cols cflat)
  else raise ValueError.

(** Modelled from the spec: [conjugate] of [qoc.standard] is missing; it is
    the elementwise complex conjugate. *)
Definition conjugate (a : list vec) : list vec := map (map Cconj) a.

(** autograd wraps every value computed from the differentiated argument
    in a [Box], whose payload is the field [_value]. *)
Inductive traced (A : Type) : Type :=
| Plain (v : A)
| Box (_value : A).
Arguments Plain {A} v.
Arguments Box {A} _value.

(** A real number or [+inf]. *)
Inductive ExtR : Type :=
| Finite (x : R)
| PosInf.

(** [x < b] for a float [x] and a possibly infinite [b]. *)
Definition lt_ext (x : R) (b : ExtR) : bool :=
  match b with
  | PosInf => true
  | Finite y => if Rlt_dec x y then true else false
  end.

(** Modelled from the spec: [GrapeLindbladResult] of [qoc.models] is
    missing.  It is the mutable record of the best controls, final
    densities, iteration and total error; [best_total_error] starts at
    [+inf]. *)
Record GrapeLindbladResult : Type := mkGrapeLindbladResult {
  best_controls : option (list vec);
  best_final_densities : option batch;
  best_iteration : option Z;
  best_total_error : ExtR
}.

Definition GrapeLindbladResult_init : GrapeLindbladResult :=
  {| best_controls := None;
     best_final_densities := None;
     best_iteration := None;
     best_total_error := PosInf |}.

(** Modelled from the spec: the classes [Dummy] and [EvolveLindbladResult]
    of [qoc.models] are missing.  The reporter object is a [Dummy()], or the
    [EvolveLindbladResult] that [evolve_lindblad_discrete] passes in its
    place; it carries the final densities, the total error and, for the
    optimisation, the iteration counter.  An attribute that has not been
    assigned yet is [None]. *)
Record Reporter : Type := mkReporter {
  iteration : option Z;
  final_densities : option (traced batch);
  total_error : option R
}.

Definition Reporter_init : Reporter :=
  {| iteration := None; final_densities := None; total_error := None |}.

(** Attribute assignments. *)
Definition set_iteration (v : Z) (r : Reporter) : Reporter :=
  {| iteration := Some v; final_densities := final_densities r;
     total_error := total_error r |}.
Definition set_final_densities (v : traced batch) (r : Reporter) : Reporter :=
  {| iteration := iteration r; final_densities := Some v;
     total_error := total_error r |}.
Definition set_total_error (v : R) (r : Reporter) : Reporter :=
  {| iteration := iteration r; final_densities := final_densities r;
     total_error := Some v |}.

Definition set_best_controls (v : list vec) (g : GrapeLindbladResult)
  : GrapeLindbladResult :=
  {| best_controls := Some v;
     best_final_densities := best_final_densities g;
     best_iteration := best_iteration g;
     best_total_error := best_total_error g |}.
Definition set_best_final_densities (v : batch) (g : GrapeLindbladResult)
  : GrapeLindbladResult :=
  {| best_controls := best_controls g;
     best_final_densities := Some v;
     best_iteration := best_iteration g;
     best_total_error := best_total_error g |}.
Definition set_best_iteration (v : Z) (g : GrapeLindbladResult)
  : GrapeLindbladResult :=
  {| best_controls := best_controls g;
     best_final_densities := best_final_densities g;
     best_iteration := Some v;
     best_total_error := best_total_error g |}.
Definition set_best_total_error (v : R) (g : GrapeLindbladResult)
  : GrapeLindbladResult :=
  {| best_controls := best_controls g;
     best_final_densities := best_final_densities g;
     best_iteration := best_iteration g;
     best_total_error := Finite v |}.

End Models.
Import Models.

(** ** Cost collaborators and the way the driver calls them *)

Definition controls_array : Type := list vec.

(** A cost object: the class attribute [requires_step_evaluation], and the
    [cost] method, given by the names of its formal parameters after [self],
    by whether it takes [**kwargs], and by its body.  Parameters after the
    third have defaults. *)
Record Cost : Type := mkCost {
  requires_step_evaluation : bool;
  cost_params : list string;
  cost_var_keyword : bool;
  cost_body :
    option controls_array -> batch -> Z -> OperationPolicy -> result R
}.

Definition has_param (name : string) (params : list string) : bool :=
  existsb (String.eqb name) params.

(** [cost.cost(controls, densities, system_step, operation_policy=operation_policy)]:
    three positional arguments and one keyword argument are bound to the
    formal parameters; a keyword that names no parameter (and is not taken
    by [**kwargs]), or that names a parameter already bound by position, is
    a TypeError, and so are too many positional arguments. *)
Definition call_cost (c : Cost) (controls : option controls_array)
    (densities : batch) (system_step : Z) (operation_policy : OperationPolicy)
  : result R :=
  let params := cost_params c in
  if (Nat.leb 3 (length params)
      && negb (has_param "operation_policy" (firstn 3 params))
      && (has_param "operation_policy" (skipn 3 params) || cost_var_keyword c))%bool
  then cost_body c controls densities system_step operation_policy
  else raise TypeError.

(** *** [TargetDensityInfidelity] *)

(** The values [numpy] hands around in [TargetDensityInfidelity.cost], by rank. *)
Inductive ndarray : Type :=
| Nd0 (x : C)
| Nd1 (v : vec)
| Nd2 (m : mat)
| Nd3 (b : batch).

(** [anp.trace(a, axis1=-1, axis2=-2)]: the trace over the last two axes;
    an array of fewer than two dimensions has no diagonal. *)
Definition anp_trace (a : ndarray) : result ndarray :=
  match a with
  | Nd3 b => ret (Nd1 (map mtrace b))
  | Nd2 m => ret (Nd0 (mtrace m))
  | Nd1 _ | Nd0 _ => raise ValueError
  end.

(** [anp.matmul] of two batches of matrices. *)
Definition anp_matmul (a b : batch) : result batch := zip_with matmul a b.

(** [a[:, 0, 0]]. *)
Definition index_all_0_0 (a : batch) : result vec :=
  map_result (fun m => r <- getitem m 0%Z ;; getitem r 0%Z) a.

Definition nd_elements (a : ndarray) : list C :=
  match a with
  | Nd0 x => [x]
  | Nd1 v => v
  | Nd2 m => concat m
  | Nd3 b => concat (concat b)
  end.

Record TargetDensityInfidelity : Type := mkTargetDensityInfidelity {
  cost_multiplier : R;
  density_count : nat;
  hilbert_size : nat;
  target_densities_dagger : batch
}.

(** [__init__]. *)
Definition TargetDensityInfidelity_init (target_densities : batch)
    (cost_multiplier : R) : TargetDensityInfidelity :=
  {| cost_multiplier := cost_multiplier;
     density_count := length target_densities;
     hilbert_size := length (hd [] target_densities);
     target_densities_dagger := map conjugate_transpose target_densities |}.

(** [cost(self, controls, densities, sytem_eval_step)]. *)
Definition TargetDensityInfidelity_cost (self : TargetDensityInfidelity)
    (controls : option controls_array) (densities : batch)
    (sytem_eval_step : Z) : result R :=
  prod <- anp_matmul (target_densities_dagger self) densities ;;
  sliced <- index_all_0_0 prod ;;
  traces <- anp_trace (Nd1 sliced) ;;
  let inner_products :=
    map (fun z => Cdivr z (INR (hilbert_size self))) (nd_elements traces) in
  let fidelities := map (fun z => Re (Cmul z (Cconj z))) inner_products in
  let fidelity_normalized :=
    fold_left Rplus fidelities 0 / INR (density_count self) in
  let infidelity := 1 - fidelity_normalized in
  ret (infidelity * cost_multiplier self).

(** The object as the driver sees it. *)
Definition TargetDensityInfidelity_as_cost (self : TargetDensityInfidelity)
  : Cost :=
  {| requires_step_evaluation := false;
     cost_params := ["controls"; "densities"; "sytem_eval_step"]%string;
     cost_var_keyword := false;
     cost_body := fun controls densities step _ =>
                    TargetDensityInfidelity_cost self controls densities step |}.

(** ** The store of mutable objects *)

Inductive CostKind : Type := StepCost | TerminalCost.

(** One call of a cost method by the driver: from which list and at which
    position the cost was taken, the system step and densities it was given,
    and what the call produced. *)
Record Invocation : Type := mkInvocation {
  inv_kind : CostKind;
  inv_index : nat;
  inv_system_step : Z;
  inv_densities : batch;
  inv_outcome : result R
}.

(** One call of [pstate.log_and_save]. *)
Record LogEntry : Type := mkLogEntry {
  log_controls : controls_array;
  log_final_densities : batch;
  log_total_error : R;
  log_grads : controls_array;
  log_iteration : Z
}.

Record Store : Type := mkStore {
  reporter : Reporter;
  grape_result : GrapeLindbladResult;
  invocations : list Invocation;
  saved : list LogEntry
}.

(** An assignment to an attribute of the reporter, or of the result. *)
Definition on_reporter (f : Reporter -> Reporter) (s : Store) : Store :=
  {| reporter := f (reporter s); grape_result := grape_result s;
     invocations := invocations s; saved := saved s |}.

Definition on_result (f : GrapeLindbladResult -> GrapeLindbladResult)
    (s : Store) : Store :=
  {| reporter := reporter s; grape_result := f (grape_result s);
     invocations := invocations s; saved := saved s |}.

Definition record_invocation (i : Invocation) (s : Store) : Store :=
  {| reporter := reporter s; grape_result := grape_result s;
     invocations := invocations s ++ [i]; saved := saved s |}.

Definition record_log (e : LogEntry) (s : Store) : Store :=
  {| reporter := reporter s; grape_result := grape_result s;
     invocations := invocations s; saved := saved s ++ [e] |}.

(** Statements: they change the store and either raise or produce a value.
    The store that an exception leaves behind is kept. *)
Definition M (A : Type) : Type := Store -> Store * result A.

Definition mret {A : Type} (a : A) : M A := fun s => (s, ret a).

Definition mbind {A B : Type} (c : M A) (k : A -> M B) : M B :=
  fun s =>
    match c s with
    | (s', inl e) => (s', inl e)
    | (s', inr a) => k a s'
    end.

Definition lift {A : Type} (r : result A) : M A := fun s => (s, r).

Definition modify (f : Store -> Store) : M unit := fun s => (f s, ret tt).

Definition gets {A : Type} (f : Store -> A) : M A := fun s => (s, ret (f s)).

Notation "x <~ c ;; k" := (mbind c (fun x => k))
  (at level 61, c at next level, right associativity) : py_scope.
Notation "' p <~ c ;; k" := (mbind c (fun p => k))
  (at level 61, p pattern, c at next level, right associativity) : py_scope.

(** [for x in xs: acc = body(x, acc)]. *)
Fixpoint for_each {A S : Type} (xs : list A) (body : A -> S -> M S) (acc : S)
  : M S :=
  match xs with
  | [] => mret acc
  | x :: xs' => acc' <~ body x acc ;; for_each xs' body acc'
  end.

Definition enumerate {A : Type} (l : list A) : list (nat * A) :=
  combine (seq 0 (length l)) l.

(** The driver calls a cost; the call is recorded in the store. *)
Definition invoke (kind : CostKind) (i : nat) (cost : Cost)
    (controls : option controls_array) (densities : batch) (system_step : Z)
    (operation_policy : OperationPolicy) : M R :=
  fun s =>
    let r := call_cost cost controls densities system_step operation_policy in
    (record_invocation
       {| inv_kind := kind; inv_index := i; inv_system_step := system_step;
          inv_densities := densities; inv_outcome := r |} s,
     r).

(** ** [qoc/core/lindbladdiscrete.py] *)

(** [(controls, time) -> hamiltonian]; the controls are [None] when the
    evolution has no control array. *)
Definition HamiltonianFunction : Type := option vec -> R -> mat.

(** [time -> (dissipators, operators)]. *)
Definition LindbladSpecification : Type := R -> vec * list mat.

(** The fields of the program state that the module reads
    ([EvolveLindbladDiscreteState] or [GrapeLindbladDiscreteState]). *)
Record PState : Type := mkPState {
  complex_controls : bool;
  controls_shape : nat * nat;
  costs : list Cost;
  dt : R;
  final_control_step : Z;
  final_system_step : Z;
  hamiltonian : option HamiltonianFunction;
  initial_controls : controls_array;
  initial_densities : batch;
  interpolation_policy : InterpolationPolicy;
  iteration_count : Z;
  lindblad_data : option LindbladSpecification;
  max_control_norms : list R;
  operation_policy : OperationPolicy;
  step_costs : list Cost;
  system_step_multiplier : Z
}.

(** The control sets of the four Runge-Kutta stages. *)
Definition stage_controls : Type :=
  (option vec * option vec * option vec * option vec)%type.

(** Reading a local variable that may not have been assigned. *)
Definition local {A : Type} (x : option A) : result A :=
  match x with
  | Some v => ret v
  | None => raise UnboundLocalError
  end.

(** Reading an attribute that may not have been assigned. *)
Definition getattr {A : Type} (x : option A) : result A :=
  match x with
  | Some v => ret v
  | None => raise AttributeError
  end.

Section LindbladDiscrete.

(** [get_lindbladian] of [qoc.models], with the arguments in the order of
    its calls: densities, dissipators, hamiltonian, operators. *)
Variable get_lindbladian :
  batch -> option vec -> option mat -> option (list mat) -> OperationPolicy ->
  result batch.

(** The branch on [controls] of [_evolve_step_lindblad_discrete]: the
    control sets [c1], [c2], [c3], [c4]. *)
Definition rk4_controls (t1 t2 t4 : R) (control_sentinel : bool)
    (control_step : Z) (controls : option controls_array)
    (interpolation_policy : InterpolationPolicy) : result stage_controls :=
  match controls with
  | None => ret (None, None, None, None)
  | Some controls =>
      '(control_left, control_right) <-
        (if control_sentinel
         then
           control_left <- getitem controls (control_step - 1)%Z ;;
           control_right <- getitem controls control_step ;;
           ret (control_left, control_right)
         else
           control_left <- getitem controls control_step ;;
           control_right <- getitem controls (control_step + 1)%Z ;;
           ret (control_left, control_right)) ;;
      let c1 := control_left in
      c2 <- match interpolation_policy with
            | LINEAR =>
                interpolate_linear t1 t4 t2 control_left control_right
            | UNSUPPORTED _ => raise ValueError
            end ;;
      let c3 := c2 in
      let c4 := control_right in
      ret (Some c1, Some c2, Some c3, Some c4)
  end.

Definition _evolve_step_lindblad_discrete (densities : batch) (dt time : R)
    (control_sentinel : bool) (control_step : Z)
    (controls : option controls_array)
    (hamiltonian : option HamiltonianFunction)
    (interpolation_policy : InterpolationPolicy)
    (lindblad_data : option LindbladSpecification)
    (operation_policy : OperationPolicy) : result batch :=
  let t1 := time in
  let t2 := time + 0.5 * dt in
  let t3 := t2 in
  let t4 := time + dt in
  '(c1, c2, c3, c4) <-
    rk4_controls t1 t2 t4 control_sentinel control_step controls
                 interpolation_policy ;;
  let '(h1, h2, h3, h4) :=
    match hamiltonian with
    | None => (None, None, None, None)
    | Some hamiltonian =>
        let h1 := hamiltonian c1 t1 in
        let h2 := hamiltonian c2 t2 in
        let h3 := h2 in
        let h4 := hamiltonian c4 t4 in
        (Some h1, Some h2, Some h3, Some h4)
    end in
  let '((g1, l1), (g2, l2), (g3, l3), (g4, l4)) :=
    match lindblad_data with
    | None => ((None, None), (None, None), (None, None), (None, None))
    | Some lindblad_data =>
        let '(g1, l1) := lindblad_data t1 in
        let '(g2, l2) := lindblad_data t2 in
        let '(g3, l3) := lindblad_data t3 in
        let '(g4, l4) := lindblad_data t4 in
        ((Some g1, Some l1), (Some g2, Some l2),
         (Some g3, Some l3), (Some g4, Some l4))
    end in
  lind1 <- get_lindbladian densities g1 h1 l1 operation_policy ;;
  let k1 := bscale (RtoC dt) lind1 in
  rho2 <- badd densities (bscale (RtoC 0.5) k1) ;;
  lind2 <- get_lindbladian rho2 g2 h2 l2 operation_policy ;;
  let k2 := bscale (RtoC dt) lind2 in
  rho3 <- badd densities (bscale (RtoC 0.5) k2) ;;
  lind3 <- get_lindbladian rho3 g3 h3 l3 operation_policy ;;
  let k3 := bscale (RtoC dt) lind3 in
  rho4 <- badd densities k3 ;;
  lind4 <- get_lindbladian rho4 g4 h4 l4 operation_policy ;;
  let k4 := bscale (RtoC dt) lind4 in
  s12 <- badd k1 (bscale (RtoC 2) k2) ;;
  s123 <- badd s12 (bscale (RtoC 2) k3) ;;
  s1234 <- badd s123 k4 ;;
  badd densities (bscale (RtoC (1 / 6)) s1234).

(** [for i, cost in enumerate(costs): total_error = total_error + cost.cost(...)]. *)
Definition accumulate_costs (kind : CostKind) (costs : list Cost)
    (controls : option controls_array) (densities : batch) (system_step : Z)
    (operation_policy : OperationPolicy) (total_error : R) : M R :=
  for_each (enumerate costs)
    (fun '(i, cost) total_error =>
       error <~ invoke kind i cost controls densities system_step
                       operation_policy ;;
       mret (total_error + error))
    total_error.

(** The body of the loop over the system steps; the loop carries the
    densities and the total error.  The embedding computes on values, so the
    array assigned to [reporter.final_densities] is a plain one; whether the
    reporter holds a [Box] after a differentiated run is for the model of
    the differentiation capability to say. *)
Definition system_step_body (controls : option controls_array)
    (pstate : PState) (system_step : Z) (carried : batch * R)
  : M (batch * R) :=
  let '(densities, total_error) := carried in
  '(control_step, _) <~
    lift (divmod system_step (system_step_multiplier pstate)) ;;
  let is_final_control_step :=
    (control_step =? final_control_step pstate)%Z in
  let is_final_system_step :=
    (system_step =? final_system_step pstate)%Z in
  let time := IZR system_step * dt pstate in
  densities <~
    lift (_evolve_step_lindblad_discrete densities (dt pstate) time
            is_final_control_step control_step controls
            (hamiltonian pstate) (interpolation_policy pstate)
            (lindblad_data pstate) (operation_policy pstate)) ;;
  if is_final_system_step
  then
    total_error <~
      accumulate_costs TerminalCost (costs pstate) controls densities
        system_step (operation_policy pstate) total_error ;;
    _ <~ modify (on_reporter (set_final_densities (Plain densities))) ;;
    _ <~ modify (on_reporter (set_total_error total_error)) ;;
    mret (densities, total_error)
  else
    total_error <~
      accumulate_costs StepCost (step_costs pstate) controls densities
        system_step (operation_policy pstate) total_error ;;
    mret (densities, total_error).

Definition _evaluate_lindblad_discrete (controls : option controls_array)
    (pstate : PState) : M R :=
  '(_, total_error) <~
    for_each (range (final_system_step pstate + 1))
      (system_step_body controls pstate)
      (initial_densities pstate, 0) ;;
  mret total_error.

(** [evolve_lindblad_discrete], from the program state that
    [EvolveLindbladDiscreteState] builds: the result object takes the place
    of the reporter, and is returned when the evaluation did not raise. *)
Definition evolve_lindblad_discrete (controls : option controls_array)
    (pstate : PState) : result Reporter :=
  let result := Reporter_init in
  let s := {| reporter := result; grape_result := GrapeLindbladResult_init;
              invocations := []; saved := [] |} in
  match _evaluate_lindblad_discrete controls pstate s with
  | (_, inl e) => inl e
  | (s', inr _) => ret (reporter s')
  end.

Section Grape.

(** [clip_control_norms] of [qoc.core.common]: the controls after they
    have been clipped in place. *)
Variable clip_control_norms : list R -> controls_array -> controls_array.

(** [ans_jacobian(f, 0)] of [qoc.standard]: the differentiation
    capability.  It runs [f] on boxed controls and returns the value and
    the jacobian; what [f] assigns to the reporter during that run is what
    the engine leaves in the store. *)
Variable ans_jacobian :
  (option controls_array -> PState -> M R) ->
  controls_array -> PState -> M (R * controls_array).

Definition _eld_wrap (controls : list R) (pstate : PState) : M R :=
  controls <~ lift (slap_controls (complex_controls pstate) controls
                      (controls_shape pstate)) ;;
  let controls := clip_control_norms (max_control_norms pstate) controls in
  _evaluate_lindblad_discrete (Some controls) pstate.

Definition _eldj_wrap (controls : list R) (pstate : PState)
  : M (list R) :=
  controls <~ lift (slap_controls (complex_controls pstate) controls
                      (controls_shape pstate)) ;;
  let controls := clip_control_norms (max_control_norms pstate) controls in
  '(total_error, grads) <~
    ans_jacobian _evaluate_lindblad_discrete controls pstate ;;
  let grads := if complex_controls pstate then conjugate grads else grads in
  (* [final_densities] is a local variable: [None] while unassigned. *)
  reporter_final_densities <~
    (fun s => lift (getattr (Models.final_densities (reporter s))) s) ;;
  let final_densities :=
    match reporter_final_densities with
    | Box _value => Some _value
    | Plain _ => None
    end in
  best_total_error <~
    gets (fun s => Models.best_total_error (grape_result s)) ;;
  _ <~ (if lt_ext total_error best_total_error
        then
          _ <~ modify (on_result (set_best_controls controls)) ;;
          final_densities <~ lift (local final_densities) ;;
          _ <~ modify (on_result (set_best_final_densities final_densities)) ;;
          iteration <~
            (fun s => lift (getattr (Models.iteration (reporter s))) s) ;;
          _ <~ modify (on_result (set_best_iteration iteration)) ;;
          modify (on_result (set_best_total_error total_error))
        else mret tt) ;;
  final_densities <~ lift (local final_densities) ;;
  iteration <~
    (fun s => lift (getattr (Models.iteration (reporter s))) s) ;;
  _ <~ modify (record_log
                 {| log_controls := controls;
                    log_final_densities := final_densities;
                    log_total_error := total_error;
                    log_grads := grads;
                    log_iteration := iteration |}) ;;
  iteration <~
    (fun s => lift (getattr (Models.iteration (reporter s))) s) ;;
  _ <~ modify (on_reporter (set_iteration (iteration + 1)%Z)) ;;
  let grads := strip_controls (complex_controls pstate) grads in
  mret grads.

(** [optimizer.run(objective, iteration_count, initial_params, jacobian,
    args)] of the optimizer collaborator. *)
Variable optimizer_run :
  (list R -> PState -> M R) -> Z -> list R ->
  (list R -> PState -> M (list R)) -> PState -> M unit.

(** [grape_lindblad_discrete], from the program state that
    [GrapeLindbladDiscreteState] builds: a fresh reporter with
    [iteration = 0], a fresh result, the stripped initial controls handed to
    the optimizer, and the result returned when the optimizer is done. *)
Definition grape_lindblad_discrete (pstate : PState)
  : M GrapeLindbladResult :=
  _ <~ modify (on_reporter (fun _ => set_iteration 0 Reporter_init)) ;;
  _ <~ modify (on_result (fun _ => GrapeLindbladResult_init)) ;;
  let initial_controls :=
    strip_controls (complex_controls pstate) (initial_controls pstate) in
  _ <~ optimizer_run _eld_wrap (iteration_count pstate) initial_controls
         _eldj_wrap pstate ;;
  gets grape_result.

(** What the optimizer does with the gradient wrapper: one call per
    iterate; an exception leaves the loop. *)
Definition gradient_evaluations (iterates : list (list R))
    (pstate : PState) : M unit :=
  for_each iterates
    (fun controls _ => _ <~ _eldj_wrap controls pstate ;; mret tt) tt.

End Grape.

End LindbladDiscrete.

(** ** The integration step as the specification words it *)

(** [h_i = H(c_i, t_i)], or absent. *)
Definition hamiltonian_at (hamiltonian : option HamiltonianFunction)
    (c : option vec) (t : R) : option mat :=
  match hamiltonian with
  | None => None
  | Some H => Some (H c t)
  end.

(** The dissipation data queried at one time, or absent. *)
Definition dissipation_at (lindblad_data : option LindbladSpecification)
    (t : R) : option vec * option (list mat) :=
  match lindblad_data with
  | None => (None, None)
  | Some query => let '(g, l) := query t in (Some g, Some l)
  end.

Section StepSpecification.

Variable Lindbladian :
  batch -> option vec -> option mat -> option (list mat) -> OperationPolicy ->
  result batch.

(** [k = dt * Lindbladian(rho, g, h, L)]. *)
Definition increment (dt : R) (rho : batch) (g : option vec) (h : option mat)
    (l : option (list mat)) (policy : OperationPolicy) : result batch :=
  lind <- Lindbladian rho g h l policy ;;
  ret (bscale (RtoC dt) lind).

(** [rho + (k1 + 2 k2 + 2 k3 + k4) / 6] with the four increments taken at
    [t1 = t], [t2 = t3 = t + dt/2], [t4 = t + dt]. *)
Definition rk4_step_spec (rho : batch) (dt t : R) (cs : stage_controls)
    (hamiltonian : option HamiltonianFunction)
    (lindblad_data : option LindbladSpecification)
    (policy : OperationPolicy) : result batch :=
  let '(c1, c2, c3, c4) := cs in
  let t1 := t in
  let t2 := t + dt / 2 in
  let t3 := t + dt / 2 in
  let t4 := t + dt in
  let h1 := hamiltonian_at hamiltonian c1 t1 in
  let h2 := hamiltonian_at hamiltonian c2 t2 in
  let h3 := hamiltonian_at hamiltonian c3 t3 in
  let h4 := hamiltonian_at hamiltonian c4 t4 in
  let '(g1, l1) := dissipation_at lindblad_data t1 in
  let '(g2, l2) := dissipation_at lindblad_data t2 in
  let '(g3, l3) := dissipation_at lindblad_data t3 in
  let '(g4, l4) := dissipation_at lindblad_data t4 in
  k1 <- increment dt rho g1 h1 l1 policy ;;
  rho2 <- badd rho (bscale (RtoC (1 / 2)) k1) ;;
  k2 <- increment dt rho2 g2 h2 l2 policy ;;
  rho3 <- badd rho (bscale (RtoC (1 / 2)) k2) ;;
  k3 <- increment dt rho3 g3 h3 l3 policy ;;
  rho4 <- badd rho k3 ;;
  k4 <- increment dt rho4 g4 h4 l4 policy ;;
  s12 <- badd k1 (bscale (RtoC 2) k2) ;;
  s123 <- badd s12 (bscale (RtoC 2) k3) ;;
  s1234 <- badd s123 k4 ;;
  badd rho (bdivr s1234 6).

End StepSpecification.

(** The midpoint [(c_L + c_R) / 2] of two control sets. *)
Definition midpoint (cL cR : vec) : vec :=
  map (fun '(a, b) => Cdivr (Cadd a b) 2) (combine cL cR).

(** [c_L + w * (c_R - c_L)], elementwise. *)
Definition weighted (w : R) (cL cR : vec) : vec :=
  map (fun '(a, b) => Cadd a (Cmul (RtoC w) (Csub b a))) (combine cL cR).

(** ** Specification-side definitions and sample inputs *)

(** A structured control array of the given shape. *)
Definition has_shape (x : controls_array) (shape : nat * nat) : Prop :=
  length x = fst shape /\ Forall (fun row => length row = snd shape) x.

(** All entries are real numbers. *)
Definition is_real (x : controls_array) : Prop :=
  Forall (Forall (fun z => Im z = 0)) x.

(** A configuration with [final + 1] control steps and as many system
    steps, of step length 1, without Hamiltonian and Lindblad data; the
    controls have the shape of one control step with one complex control. *)
Definition sample_pstate (final : Z) (policy : InterpolationPolicy)
    (costs step_costs : list Cost) : PState :=
  {| complex_controls := true;
     controls_shape := (1%nat, 1%nat);
     costs := costs;
     dt := 1;
     final_control_step := final;
     final_system_step := final;
     hamiltonian := None;
     initial_controls := [[mkC 1 0]];
     initial_densities := [[[RtoC 1]]];
     interpolation_policy := policy;
     iteration_count := 1;
     lindblad_data := None;
     max_control_norms := [1];
     operation_policy := CPU;
     step_costs := step_costs;
     system_step_multiplier := 1 |}.

Definition empty_store : Store :=
  {| reporter := Reporter_init;
     grape_result := GrapeLindbladResult_init;
     invocations := [];
     saved := [] |}.

Definition contribution (i : Invocation) : R :=
  match inv_outcome i with
  | inr error => error
  | inl _ => 0
  end.

(** The contributions of a list of calls, added to [total] in call order. *)
Definition add_contributions (calls : list Invocation) (total : R) : R :=
  fold_left (fun acc i => acc + contribution i) calls total.

Definition returned (i : Invocation) : Prop :=
  exists error, inv_outcome i = inr error.

(** What a run of statements leaves alone. *)
Definition same_objects (s s' : Store) : Prop :=
  reporter s' = reporter s /\ grape_result s' = grape_result s /\
  saved s' = saved s.

(** A cost that takes the [operation_policy] keyword and always returns 1. *)
Definition unit_cost : Cost :=
  {| requires_step_evaluation := true;
     cost_params :=
       ["controls"; "densities"; "system_step"; "operation_policy"]%string;
     cost_var_keyword := false;
     cost_body := fun _ _ _ _ => ret 1 |}.

(** Two system steps without controls, one step cost and one terminal cost. *)
Definition sample_run : Store * result R :=
  _evaluate_lindblad_discrete Models.get_lindbladian None
    (sample_pstate 1 LINEAR [unit_cost] [unit_cost]) empty_store.

(** The infidelity that the docstring and the tests of
    [targetdensityinfidelity.py] describe:
    [cost_multiplier * (1 - (1/D) * sum_i |tr(T_i^dagger rho_i) / H|^2)]. *)
Definition target_density_infidelity_spec (cost_multiplier : R)
    (target_densities densities : batch) : result R :=
  prod <- anp_matmul (map conjugate_transpose target_densities) densities ;;
  let H := INR (length (hd [] target_densities)) in
  let D := INR (length target_densities) in
  let fidelities :=
    map (fun m => let z := Cdivr (mtrace m) H in Re z * Re z + Im z * Im z)
        prod in
  ret (cost_multiplier * (1 - (1 / D) * fold_left Rplus fidelities 0)).

(** The density of the second test of [_tests()]: the projector on the
    second basis state. *)
Definition test_density : batch :=
  [[[RtoC 0; RtoC 0]; [RtoC 0; RtoC 1]]].

(** The store at the start of [grape_lindblad_discrete]: a fresh reporter
    with [iteration = 0] and a fresh result. *)
Definition grape_store : Store := on_reporter (set_iteration 0) empty_store.

(** Control norms that are never exceeded: clipping changes nothing. *)
Definition no_clip (max_control_norms : list R) (controls : controls_array)
  : controls_array := controls.

(** A terminal cost that takes the [operation_policy] keyword, does not
    look at the controls and always returns the float [0.5]. *)
Definition half_cost : Cost :=
  {| requires_step_evaluation := false;
     cost_params :=
       ["controls"; "densities"; "system_step"; "operation_policy"]%string;
     cost_var_keyword := false;
     cost_body := fun _ _ _ _ => ret 0.5 |}.

(** The one call of [half_cost] in an evaluation of
    [sample_pstate 0 LINEAR [half_cost] []]. *)
Definition half_cost_call : Invocation :=
  {| inv_kind := TerminalCost; inv_index := 0; inv_system_step := 0;
     inv_densities := [[[RtoC 1]]]; inv_outcome := inr 0.5 |}.

(** The store after that evaluation. *)
Definition after_half_cost_evaluation (s : Store) : Store :=
  on_reporter (set_total_error 0.5)
    (on_reporter (set_final_densities (Plain [[[RtoC 1]]]))
       (record_invocation half_cost_call s)).

(** The differentiation capability on a function whose value and densities
    do not depend on the controls: the function runs on the controls, no
    value it computes is boxed, and the jacobian is zero.  As with autograd,
    the value has to be a float: an evaluation that has called no cost
    returns the integer [0] with which [total_error] starts, an integer has
    no gradient, and the capability raises TypeError. *)
Definition untraced_jacobian (f : option controls_array -> PState -> M R)
    (controls : controls_array) (pstate : PState) : M (R * controls_array) :=
  fun s =>
    match f (Some controls) pstate s with
    | (s1, inl e) => (s1, inl e)
    | (s1, inr total_error) =>
        if (length (invocations s1) =? length (invocations s))%nat
        then (s1, inl TypeError)
        else (s1, inr (total_error, map (map (fun _ => C0)) controls))
    end.

(** The differentiation capability on a function whose densities depend on
    the controls: the final densities that the run leaves in the reporter
    are boxed; [jac] gives the jacobian. *)
Definition boxing_jacobian (jac : controls_array -> controls_array)
    (f : option controls_array -> PState -> M R)
    (controls : controls_array) (pstate : PState) : M (R * controls_array) :=
  total_error <~ f (Some controls) pstate ;;
  _ <~ modify (on_reporter (fun r =>
         match Models.final_densities r with
         | Some (Plain d) => set_final_densities (Box d) r
         | _ => r
         end)) ;;
  mret (total_error, jac controls).

(** The result after all four fields have been overwritten. *)
Definition overwritten (controls : controls_array) (densities : batch)
    (iteration : Z) (total_error : R) : GrapeLindbladResult :=
  {| best_controls := Some controls;
     best_final_densities := Some densities;
     best_iteration := Some iteration;
     best_total_error := Finite total_error |}.

(** A jacobian with the single entry [2 - 3i]. *)
Definition sample_raw_jacobian (controls : controls_array) : controls_array :=
  [[mkC 2 (- 3)]].

Definition sample_gradient_run : Store * result (list R) :=
  _eldj_wrap Models.get_lindbladian no_clip
    (boxing_jacobian sample_raw_jacobian) [1; 0]
    (sample_pstate 0 LINEAR [] []) grape_store.

(** The smaller of a total error and a possibly infinite bound. *)
Definition ext_min (x : R) (b : ExtR) : ExtR :=
  if lt_ext x b then Finite x else b.

Definition ext_le (a b : ExtR) : Prop :=
  match a, b with
  | _, PosInf => True
  | PosInf, Finite _ => False
  | Finite x, Finite y => x <= y
  end.

(** The minimum of the total errors seen so far, [+inf] before the first. *)
Definition minimum_of (errors : list R) : ExtR :=
  fold_left (fun b x => ext_min x b) errors PosInf.

Definition best_is_minimum (s : Store) : Prop :=
  best_total_error (grape_result s)
  = minimum_of (map log_total_error (saved s)).

(** An optimizer that begins with a gradient evaluation at the initial
    parameters. *)
Definition gradient_first_optimizer (objective : list R -> PState -> M R)
    (iteration_count : Z) (initial_params : list R)
    (jacobian : list R -> PState -> M (list R)) (pstate : PState) : M unit :=
  _ <~ jacobian initial_params pstate ;; mret tt.

Section EvaluationSpecification.

Variable Lindbladian :
  batch -> option vec -> option mat -> option (list mat) -> OperationPolicy ->
  result batch.
Variable controls : option controls_array.
Variable pstate : PState.

(** The density batch after the integration of the first [n] system steps:
    step [k] runs the integrator at time [k * dt] with the control step
    [k // system_step_multiplier]. *)
Fixpoint densities_after (n : nat) : result batch :=
  match n with
  | O => ret (initial_densities pstate)
  | S k =>
      densities <- densities_after k ;;
      '(control_step, _) <-
        divmod (Z.of_nat k) (system_step_multiplier pstate) ;;
      _evolve_step_lindblad_discrete Lindbladian densities (dt pstate)
        (IZR (Z.of_nat k) * dt pstate)
        (control_step =? final_control_step pstate)%Z control_step controls
        (hamiltonian pstate) (interpolation_policy pstate)
        (lindblad_data pstate) (operation_policy pstate)
  end.

(** Every cost of the list [cs], numbered from [first], called at one system
    step against one batch. *)
Definition cost_calls_from (first : nat) (kind : CostKind) (cs : list Cost)
    (system_step : Z) (densities : batch) : list Invocation :=
  map (fun '(i, cost) =>
         {| inv_kind := kind; inv_index := i; inv_system_step := system_step;
            inv_densities := densities;
            inv_outcome := call_cost cost controls densities system_step
                             (operation_policy pstate) |})
      (combine (seq first (length cs)) cs).

Definition cost_calls : CostKind -> list Cost -> Z -> batch -> list Invocation :=
  cost_calls_from 0.

(** The calls the specification asks for at one system step: every terminal
    cost against the final batch at the final system step, every step cost
    against the intermediate batch at any other step. *)
Definition calls_at (system_step : Z) : list Invocation :=
  match densities_after (S (Z.to_nat system_step)) with
  | inl _ => []
  | inr densities =>
      if (system_step =? final_system_step pstate)%Z
      then cost_calls TerminalCost (costs pstate) system_step densities
      else cost_calls StepCost (step_costs pstate) system_step densities
  end.

Definition calls_of_run : list Invocation :=
  flat_map calls_at (range (final_system_step pstate + 1)).

(** A cost call that is routed as the specification asks: a terminal cost
    at the final system step or a step cost at another system step, against
    the batch that the integrator produced at that step. *)
Definition routed (i : Invocation) : Prop :=
  (inv_kind i = TerminalCost
   <-> inv_system_step i = final_system_step pstate)
  /\ (0 <= inv_system_step i <= final_system_step pstate)%Z
  /\ densities_after (S (Z.to_nat (inv_system_step i)))
     = inr (inv_densities i).

(** The calls of an evaluation that may have raised. *)
Definition routed_between (lo hi : nat) (i : Invocation) : Prop :=
  exists j : nat,
    inv_system_step i = Z.of_nat j /\ (lo <= j < hi)%nat
    /\ (inv_kind i = TerminalCost <-> Z.of_nat j = final_system_step pstate)
    /\ densities_after (S j)
       = inr (inv_densities i).

End EvaluationSpecification.

(** ** Definitions for the properties of whole runs *)

(** What no system step changes: the iteration counter, the best result and
    the log. *)
Definition kept (s s' : Store) : Prop :=
  Models.iteration (reporter s') = Models.iteration (reporter s)
  /\ grape_result s' = grape_result s
  /\ saved s' = saved s.

(** The configuration [pstate] with another system step multiplier. *)
Definition with_system_step_multiplier (m : Z) (pstate : PState) : PState :=
  {| complex_controls := complex_controls pstate;
     controls_shape := controls_shape pstate;
     costs := costs pstate;
     dt := dt pstate;
     final_control_step := final_control_step pstate;
     final_system_step := final_system_step pstate;
     hamiltonian := hamiltonian pstate;
     initial_controls := initial_controls pstate;
     initial_densities := initial_densities pstate;
     interpolation_policy := interpolation_policy pstate;
     iteration_count := iteration_count pstate;
     lindblad_data := lindblad_data pstate;
     max_control_norms := max_control_norms pstate;
     operation_policy := operation_policy pstate;
     step_costs := step_costs pstate;
     system_step_multiplier := m |}.

(** An evaluation that stops in the call of its terminal cost. *)
Definition sample_raising_run : Store * result R :=
  _evaluate_lindblad_discrete Models.get_lindbladian None
    (sample_pstate 0 LINEAR
       [TargetDensityInfidelity_as_cost
          (TargetDensityInfidelity_init test_density 1)] [])
    empty_store.

(** What an optimizer can do with the two wrappers: ask for the objective
    or for the gradient at parameters of its choice. *)
Inductive OptimizerCall : Type :=
| CallObjective (params : list R)
| CallJacobian (params : list R).

(** The values that the wrappers have handed back so far. *)
Definition OptimizerHistory : Type := list (R + list R).

(** An optimizer that chooses each call from what it has been handed back,
    stops when it chooses to, or after [fuel] calls, and lets an exception
    of a wrapper pass. *)
Fixpoint run_strategy (strategy : OptimizerHistory -> option OptimizerCall)
    (fuel : nat) (history : OptimizerHistory)
    (objective : list R -> PState -> M R)
    (jacobian : list R -> PState -> M (list R)) (pstate : PState) : M unit :=
  match fuel with
  | O => mret tt
  | S fuel' =>
      match strategy history with
      | None => mret tt
      | Some (CallObjective params) =>
          value <~ objective params pstate ;;
          run_strategy strategy fuel' (history ++ [inl value]) objective
            jacobian pstate
      | Some (CallJacobian params) =>
          grads <~ jacobian params pstate ;;
          run_strategy strategy fuel' (history ++ [inr grads]) objective
            jacobian pstate
      end
  end.

(** The optimizer collaborator that follows a strategy, in the argument
    order of [optimizer.run]: the strategy first sees the iteration count
    and the initial parameters. *)
Definition strategy_optimizer
    (strategy : Z -> list R -> OptimizerHistory -> option OptimizerCall)
    (fuel : nat) (objective : list R -> PState -> M R) (iteration_count : Z)
    (initial_params : list R) (jacobian : list R -> PState -> M (list R))
    (pstate : PState) : M unit :=
  run_strategy (strategy iteration_count initial_params) fuel [] objective
    jacobian pstate.

(** One gradient evaluation at the initial parameters, then stop. *)
Definition one_gradient_strategy (iteration_count : Z)
    (initial_params : list R) (history : OptimizerHistory)
  : option OptimizerCall :=
  match history with
  | [] => Some (CallJacobian initial_params)
  | _ :: _ => None
  end.

(** The calls of a run that raised: every call returned and the exception
    came from elsewhere, or the last call raised it. *)
Definition stopped_by (e : PyExn) (calls : list Invocation) : Prop :=
  Forall returned calls
  \/ (exists before last,
         calls = before ++ [last]
         /\ Forall returned before
         /\ inv_outcome last = inl e).

(** ** Arithmetic of complex numbers and arrays *)

Lemma C_eq (a b : C) : Re a = Re b -> Im a = Im b -> a = b.
Proof. destruct a, b; simpl; intros -> ->; reflexivity. Qed.

Lemma Cmul_sixth (z : C) : Cmul (RtoC (1 / 6)) z = Cdivr z 6.
Proof. apply C_eq; simpl; field. Qed.

Lemma Cmul_C0_r (c : C) : Cmul c C0 = C0.
Proof. apply C_eq; simpl; ring. Qed.

Lemma Cadd_C0_r (c : C) : Cadd c C0 = c.
Proof. apply C_eq; simpl; ring. Qed.

Lemma Cconj_minus (x y : R) : Cconj (mkC x (- y)) = mkC x y.
Proof. apply C_eq; simpl; ring. Qed.

Lemma bscale_sixth (b : batch) : bscale (RtoC (1 / 6)) b = bdivr b 6.
Proof.
  unfold bscale, bdivr, mscale, vscale.
  apply map_ext; intro m; apply map_ext; intro v; apply map_ext; intro z.
  apply Cmul_sixth.
Qed.

Lemma bscale_sixth_badd (rho b : batch) :
  badd rho (bscale (RtoC (1 / 6)) b) = badd rho (bdivr b 6).
Proof. now rewrite bscale_sixth. Qed.

(** Combining a list with an image of itself never meets a shape mismatch. *)
Lemma zip_with_diag {A B X : Type} (f : A -> B -> result X) (g : A -> B)
    (h : A -> X) (l : list A) :
  (forall a, In a l -> f a (g a) = ret (h a)) ->
  zip_with f l (map g l) = ret (map h l).
Proof.
  induction l as [|a l IH]; intros Hf; simpl.
  - reflexivity.
  - rewrite (Hf a (or_introl eq_refl)). simpl.
    rewrite IH by (intros b Hb; apply Hf; right; exact Hb).
    reflexivity.
Qed.

Lemma vadd_zeros (v : vec) : vadd v (map (fun _ => C0) v) = ret v.
Proof.
  unfold vadd. rewrite zip_with_diag with (h := fun a => a).
  - now rewrite map_id.
  - intros a _. now rewrite Cadd_C0_r.
Qed.

Lemma madd_zeros (m : mat) : madd m (mzeros m) = ret m.
Proof.
  unfold madd, mzeros. rewrite zip_with_diag with (h := fun a => a).
  - now rewrite map_id.
  - intros a _. apply vadd_zeros.
Qed.

Lemma badd_zeros (b : batch) : badd b (bzeros b) = ret b.
Proof.
  unfold badd. change (bzeros b) with (map mzeros b).
  rewrite zip_with_diag with (h := fun a => a).
  - now rewrite map_id.
  - intros a _. apply madd_zeros.
Qed.

Lemma bscale_zeros (c : C) (b : batch) : bscale c (bzeros b) = bzeros b.
Proof.
  unfold bscale, bzeros, mscale, vscale.
  rewrite map_map. apply map_ext; intro m.
  rewrite map_map. apply map_ext; intro v.
  rewrite map_map. apply map_ext; intro z. apply Cmul_C0_r.
Qed.

Lemma bzeros_idem (b : batch) : bzeros (bzeros b) = bzeros b.
Proof.
  unfold bzeros. rewrite map_map. apply map_ext; intro m.
  rewrite map_map. apply map_ext; intro v. now rewrite map_map.
Qed.

Lemma badd_zeros_zeros (b : batch) : badd (bzeros b) (bzeros b) = ret (bzeros b).
Proof.
  rewrite <- (bzeros_idem b) at 2. apply badd_zeros.
Qed.

Lemma mzeros_idem (m : mat) : mzeros (mzeros m) = mzeros m.
Proof.
  unfold mzeros. rewrite map_map. apply map_ext; intro v. now rewrite map_map.
Qed.

(** With neither a Hamiltonian nor dissipators the generator vanishes. *)
Lemma get_lindbladian_absent (rho : batch) (policy : OperationPolicy) :
  Models.get_lindbladian rho None None None policy = ret (bzeros rho).
Proof.
  unfold Models.get_lindbladian. change (bzeros rho) with (map mzeros rho).
  induction rho as [|m rho IH]; simpl.
  - reflexivity.
  - unfold lindbladian at 1. simpl.
    rewrite <- (mzeros_idem m) at 2. rewrite madd_zeros. simpl.
    rewrite IH. reflexivity.
Qed.

(** ** The integration step *)

Lemma rk4_controls_third t1 t2 t4 sentinel step controls policy c1 c2 c3 c4 :
  rk4_controls t1 t2 t4 sentinel step controls policy = inr (c1, c2, c3, c4) ->
  c3 = c2.
Proof.
  unfold rk4_controls. destruct controls as [cs|].
  - destruct sentinel;
      (destruct (getitem cs _) as [|l]; simpl; [discriminate|];
       destruct (getitem cs _) as [|r]; simpl; [discriminate|];
       destruct policy; simpl; [|discriminate];
       destruct (interpolate_linear _ _ _ _ _); simpl; [discriminate|];
       intro H; inversion H; reflexivity).
  - intro H; inversion H; reflexivity.
Qed.

Ltac step_bind :=
  match goal with
  | |- context [match ?x with inl _ => _ | inr _ => _ end] =>
      destruct x; simpl; try reflexivity
  end.

(** C1. One call of [_evolve_step_lindblad_discrete] is the Runge-Kutta step
    [rho + (k1 + 2 k2 + 2 k3 + k4) / 6] of the specification: the increments
    are [dt * Lindbladian] at [rho], [rho + k1/2], [rho + k2/2], [rho + k3],
    the times are [t], [t + dt/2], [t + dt/2], [t + dt], the Hamiltonian is
    [H(c_i, t_i)] when present and the dissipation data are queried from the
    Lindblad specification at each of the four times. *)
Theorem evolve_step_is_rk4_step :
  forall Lindbladian rho dt t sentinel step controls hamiltonian policy
         lindblad_data op,
    _evolve_step_lindblad_discrete Lindbladian rho dt t sentinel step controls
      hamiltonian policy lindblad_data op
    = (cs <- rk4_controls t (t + dt / 2) (t + dt) sentinel step controls policy ;;
       rk4_step_spec Lindbladian rho dt t cs hamiltonian lindblad_data op).
Proof.
  intros Lindbladian rho dt t sentinel step controls hamiltonian policy
         lindblad_data op.
  unfold _evolve_step_lindblad_discrete.
  replace (0.5 * dt) with (dt / 2) by lra.
  replace (RtoC 0.5) with (RtoC (1 / 2)) by (f_equal; lra).
  destruct (rk4_controls t (t + dt / 2) (t + dt) sentinel step controls policy)
    as [e|[[[c1 c2] c3] c4]] eqn:Hcs; simpl; [reflexivity|].
  apply rk4_controls_third in Hcs. subst c3.
  unfold rk4_step_spec, hamiltonian_at, dissipation_at, increment.
  destruct hamiltonian as [H|]; destruct lindblad_data as [query|];
    try destruct (query t) as [g1 l1];
    try destruct (query (t + dt / 2)) as [g2 l2];
    try destruct (query (t + dt)) as [g4 l4];
    unfold bind; repeat step_bind; apply bscale_sixth_badd.
Qed.

(** ** Control interpolation *)

Lemma vsub_vadd_weighted (w : R) :
  forall cL cR : vec,
    length cL = length cR ->
    (d <- vsub cR cL ;; vadd cL (vscale (RtoC w) d)) = ret (weighted w cL cR).
Proof.
  induction cL as [|a cL IH]; intros [|b cR] Hlen; simpl in Hlen;
    try discriminate.
  - reflexivity.
  - injection Hlen as Hlen. specialize (IH cR Hlen).
    unfold vsub, vadd, weighted in *. simpl.
    destruct (zip_with (fun a b => ret (Csub a b)) cR cL) as [e|d]; simpl in *.
    + discriminate.
    + rewrite IH. reflexivity.
Qed.

Lemma interpolate_linear_weighted (x1 x2 x3 : R) (cL cR : vec) :
  x2 - x1 <> 0 ->
  length cL = length cR ->
  interpolate_linear x1 x2 x3 cL cR
  = ret (weighted ((x3 - x1) / (x2 - x1)) cL cR).
Proof.
  intros Hx Hlen. unfold interpolate_linear.
  destruct (Req_dec_T (x2 - x1) 0) as [E|_]; [contradiction|].
  now apply vsub_vadd_weighted.
Qed.

Lemma weighted_half_midpoint (w : R) (cL cR : vec) :
  w = 1 / 2 -> weighted w cL cR = midpoint cL cR.
Proof.
  intros ->. unfold weighted, midpoint. apply map_ext. intros [a b].
  apply C_eq; simpl; field.
Qed.

(** C4. In a step that has a control array, under the LINEAR policy, [c1]
    is the left bracketing control, [c4] the right one, and [c2 = c3] is the
    linear interpolation [c_L + ((t2 - t1)/(t4 - t1)) * (c_R - c_L)], which
    is the midpoint [(c_L + c_R)/2]; the bracketing pair is
    [(controls[control_step - 1], controls[control_step])] when
    [control_step] is the final control step and
    [(controls[control_step], controls[control_step + 1])] otherwise. *)
Theorem rk4_controls_linear_midpoint :
  forall (time dt : R) (control_step final_control_step : Z)
         (controls : controls_array) (cL cR : vec),
    dt <> 0 ->
    length cL = length cR ->
    (if (control_step =? final_control_step)%Z
     then getitem controls (control_step - 1)%Z = inr cL /\
          getitem controls control_step = inr cR
     else getitem controls control_step = inr cL /\
          getitem controls (control_step + 1)%Z = inr cR) ->
    let t1 := time in
    let t2 := time + 0.5 * dt in
    let t4 := time + dt in
    let c2 := weighted ((t2 - t1) / (t4 - t1)) cL cR in
    rk4_controls t1 t2 t4 (control_step =? final_control_step)%Z control_step
      (Some controls) LINEAR
    = inr (Some cL, Some c2, Some c2, Some cR)
    /\ c2 = midpoint cL cR.
Proof.
  intros time dt control_step final_control_step controls cL cR Hdt Hlen Hpair.
  cbv zeta. split.
  - unfold rk4_controls.
    destruct (control_step =? final_control_step)%Z;
      destruct Hpair as [-> ->]; simpl;
      (rewrite interpolate_linear_weighted;
       [reflexivity | replace (time + dt - time) with dt by ring; exact Hdt
       | exact Hlen]).
  - apply weighted_half_midpoint.
    replace (time + 0.5 * dt - time) with (dt / 2) by lra.
    replace (time + dt - time) with dt by ring.
    now field.
Qed.

(** Two control steps with controls [1] and [3], step length [2]: at the
    first (non-final) control step the stages see [1], [2], [2], [3]. *)
Lemma rk4_controls_linear_midpoint_witness :
  rk4_controls 0 (0 + 0.5 * 2) (0 + 2) (0 =? 1)%Z 0
    (Some [[RtoC 1]; [RtoC 3]]) LINEAR
  = inr (Some [RtoC 1],
         Some (weighted ((0 + 0.5 * 2 - 0) / (0 + 2 - 0)) [RtoC 1] [RtoC 3]),
         Some (weighted ((0 + 0.5 * 2 - 0) / (0 + 2 - 0)) [RtoC 1] [RtoC 3]),
         Some [RtoC 3])
  /\ weighted ((0 + 0.5 * 2 - 0) / (0 + 2 - 0)) [RtoC 1] [RtoC 3]
     = midpoint [RtoC 1] [RtoC 3].
Proof.
  apply (rk4_controls_linear_midpoint 0 2 0%Z 1%Z [[RtoC 1]; [RtoC 3]]
           [RtoC 1] [RtoC 3]).
  - lra.
  - reflexivity.
  - simpl. split; reflexivity.
Defined.

(** ** The step without a generator *)

Lemma evolve_step_absent rho dt t sentinel step controls policy op :
  _evolve_step_lindblad_discrete Models.get_lindbladian rho dt t sentinel
    step controls None policy None op
  = (_ <- rk4_controls t (t + 0.5 * dt) (t + dt) sentinel step controls
            policy ;;
     ret rho).
Proof.
  unfold _evolve_step_lindblad_discrete.
  destruct (rk4_controls t (t + 0.5 * dt) (t + dt) sentinel step controls
              policy)
    as [e|[[[c1 c2] c3] c4]]; simpl; [reflexivity|].
  repeat (rewrite ?get_lindbladian_absent, ?bscale_zeros, ?badd_zeros,
            ?badd_zeros_zeros; simpl).
  reflexivity.
Qed.

(** C7. With the Hamiltonian and the Lindblad specification both absent
    the Lindbladian of every batch is the zero batch, so is each of the four
    increments [dt * Lindbladian], whatever batch it is taken at, and one
    integration step returns the input batch unchanged: in every step whose
    stage controls [c1], ..., [c4] have been resolved, and so in every step
    without a control array. *)
Theorem step_without_generator_is_identity :
  forall rho dt t sentinel step controls policy op cs,
    rk4_controls t (t + 0.5 * dt) (t + dt) sentinel step controls policy
    = inr cs ->
    Models.get_lindbladian rho None None None op = inr (bzeros rho)
    /\ (forall x,
          increment Models.get_lindbladian dt x None None None op
          = inr (bzeros x))
    /\ _evolve_step_lindblad_discrete Models.get_lindbladian rho dt t sentinel
         step controls None policy None op
       = inr rho
    /\ _evolve_step_lindblad_discrete Models.get_lindbladian rho dt t sentinel
         step None None policy None op
       = inr rho.
Proof.
  intros rho dt t sentinel step controls policy op cs Hcs.
  split; [apply get_lindbladian_absent|].
  split.
  - intro x. unfold increment. rewrite get_lindbladian_absent. simpl.
    now rewrite bscale_zeros.
  - split.
    + rewrite evolve_step_absent, Hcs. reflexivity.
    + rewrite evolve_step_absent. reflexivity.
Qed.

(** The stage controls of the first of two control steps with the controls
    [1] and [3], step length [2]. *)
Lemma sample_stage_controls :
  rk4_controls 0 (0 + 0.5 * 2) (0 + 2) false 0
    (Some [[RtoC 1]; [RtoC 3]]) LINEAR
  = inr (Some [RtoC 1],
         Some (weighted ((0 + 0.5 * 2 - 0) / (0 + 2 - 0)) [RtoC 1] [RtoC 3]),
         Some (weighted ((0 + 0.5 * 2 - 0) / (0 + 2 - 0)) [RtoC 1] [RtoC 3]),
         Some [RtoC 3]).
Proof.
  unfold rk4_controls. simpl.
  rewrite interpolate_linear_weighted; [reflexivity | lra | reflexivity].
Qed.

(** One density of two levels, in a step with a control array. *)
Lemma step_without_generator_is_identity_witness :
  let rho := [[[RtoC 1; RtoC 0]; [RtoC 0; RtoC 0]]] in
  Models.get_lindbladian rho None None None CPU = inr (bzeros rho)
  /\ (forall x,
        increment Models.get_lindbladian 2 x None None None CPU
        = inr (bzeros x))
  /\ _evolve_step_lindblad_discrete Models.get_lindbladian rho 2 0 false 0
       (Some [[RtoC 1]; [RtoC 3]]) None LINEAR None CPU
     = inr rho
  /\ _evolve_step_lindblad_discrete Models.get_lindbladian rho 2 0 false 0
       None None LINEAR None CPU
     = inr rho.
Proof.
  apply (step_without_generator_is_identity
           [[[RtoC 1; RtoC 0]; [RtoC 0; RtoC 0]]] 2 0 false 0%Z
           (Some [[RtoC 1]; [RtoC 3]]) LINEAR CPU
           (Some [RtoC 1],
            Some (weighted ((0 + 0.5 * 2 - 0) / (0 + 2 - 0)) [RtoC 1]
                    [RtoC 3]),
            Some (weighted ((0 + 0.5 * 2 - 0) / (0 + 2 - 0)) [RtoC 1]
                    [RtoC 3]),
            Some [RtoC 3])).
  exact sample_stage_controls.
Defined.

(** ** Control representation: [slap_controls] after [strip_controls] *)

Lemma firstn_app_length {A : Type} (a b : list A) (n : nat) :
  length a = n -> firstn n (a ++ b) = a.
Proof.
  intros <-. induction a as [|x a IH]; simpl.
  - now destruct b.
  - now rewrite IH.
Qed.

Lemma skipn_app_length {A : Type} (a b : list A) (n : nat) :
  length a = n -> skipn n (a ++ b) = b.
Proof.
  intros <-. induction a as [|x a IH]; simpl; auto.
Qed.

Lemma reshape_concat (cols : nat) :
  forall (x : controls_array) (rows : nat),
    length x = rows ->
    Forall (fun row => length row = cols) x ->
    reshape rows cols (concat x) = x.
Proof.
  induction x as [|row x IH]; intros rows Hrows Hcols; subst rows; simpl.
  - reflexivity.
  - inversion Hcols as [|? ? Hrow Hrest]; subst.
    rewrite firstn_app_length, skipn_app_length by reflexivity.
    now rewrite IH.
Qed.

Lemma length_concat_rect (cols : nat) :
  forall x : controls_array,
    Forall (fun row => length row = cols) x ->
    length (concat x) = (length x * cols)%nat.
Proof.
  induction x as [|row x IH]; intros Hcols; simpl.
  - reflexivity.
  - inversion Hcols; subst. rewrite length_app, IH by assumption. reflexivity.
Qed.

Lemma combine_Re_Im (l : list C) :
  map (fun '(x, y) => mkC x y) (combine (map Re l) (map Im l)) = l.
Proof.
  induction l as [|[x y] l IH]; simpl; [reflexivity | now rewrite IH].
Qed.

Lemma RtoC_Re_real (l : list C) :
  Forall (fun z => Im z = 0) l -> map RtoC (map Re l) = l.
Proof.
  induction 1 as [|[x y] l Hz _ IH]; simpl; [reflexivity|].
  simpl in Hz. subst y. now rewrite IH.
Qed.

Lemma is_real_concat (x : controls_array) :
  is_real x -> Forall (fun z => Im z = 0) (concat x).
Proof.
  induction 1 as [|row x Hrow _ IH]; simpl.
  - constructor.
  - apply Forall_app. now split.
Qed.

Lemma even_double (n : nat) : Nat.even (n + n) = true.
Proof.
  replace (n + n)%nat with (2 * n)%nat by lia. apply Nat.even_spec.
  now exists n.
Qed.

Lemma half_double (n : nat) : Nat.div (n + n) 2 = n.
Proof.
  replace (n + n)%nat with (n * 2)%nat by lia. now apply Nat.div_mul.
Qed.

Lemma half_double_divmod (n : nat) : fst (Nat.divmod (n + n) 1 0 1) = n.
Proof. exact (half_double n). Qed.

(** C6. For every structured control array of the configured shape (real
    when the controls are not complex), slapping the stripped controls gives
    the array back; the stripped vector has one real entry per control, and
    twice as many when the controls are complex. *)
Theorem slap_strip_roundtrip :
  forall (complex_controls : bool) (x : controls_array) (shape : nat * nat),
    has_shape x shape ->
    (complex_controls = false -> is_real x) ->
    slap_controls complex_controls (strip_controls complex_controls x) shape
    = inr x
    /\ length (strip_controls complex_controls x)
       = ((if complex_controls then 2 else 1) * (fst shape * snd shape))%nat.
Proof.
  intros complex_controls x [rows cols] [Hrows Hcols] Hreal. simpl in *.
  pose proof (length_concat_rect cols x Hcols) as Hlen. rewrite Hrows in Hlen.
  unfold slap_controls, strip_controls. destruct complex_controls.
  - rewrite length_app, !length_map, even_double, !half_double_divmod.
    rewrite firstn_app_length, skipn_app_length by now rewrite length_map.
    simpl. rewrite combine_Re_Im, Hlen, Nat.eqb_refl.
    rewrite reshape_concat by assumption. split; [reflexivity | lia].
  - simpl. rewrite RtoC_Re_real by (apply is_real_concat; auto).
    rewrite length_map, Hlen, Nat.eqb_refl.
    rewrite reshape_concat by assumption. split; [reflexivity | lia].
Qed.

(** A complex array of one control step and two controls. *)
Lemma slap_strip_roundtrip_witness :
  slap_controls true (strip_controls true [[mkC 1 2; mkC 3 4]]) (1%nat, 2%nat)
  = inr [[mkC 1 2; mkC 3 4]]
  /\ length (strip_controls true [[mkC 1 2; mkC 3 4]])
     = ((if true then 2 else 1) * (fst (1%nat, 2%nat) * snd (1%nat, 2%nat)))%nat.
Proof.
  apply (slap_strip_roundtrip true [[mkC 1 2; mkC 3 4]] (1%nat, 2%nat)).
  - split; [reflexivity | repeat constructor].
  - discriminate.
Defined.

(** ** An unsupported interpolation policy *)

Lemma getitem_in_range {A : Type} (l : list A) (i : Z) :
  (- Z.of_nat (length l) <= i < Z.of_nat (length l))%Z ->
  exists a, getitem l i = inr a.
Proof.
  intros Hi. unfold getitem.
  set (j := if (i <? 0)%Z then (Z.of_nat (length l) + i)%Z else i).
  assert (Hj : (0 <= j < Z.of_nat (length l))%Z).
  { subst j. destruct (i <? 0)%Z eqn:E.
    - apply Z.ltb_lt in E. lia.
    - apply Z.ltb_ge in E. lia. }
  destruct (Z.leb_spec 0 j); [|lia].
  destruct (Z.ltb_spec j (Z.of_nat (length l))); [|lia].
  simpl. destruct (nth_error l (Z.to_nat j)) as [a|] eqn:E.
  - now exists a.
  - apply nth_error_None in E. lia.
Qed.

Lemma rk4_controls_unsupported (t1 t2 t4 : R) (sentinel : bool) (step : Z)
    (controls : controls_array) (tag : nat) (cL cR : vec) :
  (if sentinel
   then getitem controls (step - 1)%Z = inr cL /\ getitem controls step = inr cR
   else getitem controls step = inr cL /\
        getitem controls (step + 1)%Z = inr cR) ->
  rk4_controls t1 t2 t4 sentinel step (Some controls) (UNSUPPORTED tag)
  = inl ValueError.
Proof.
  unfold rk4_controls. destruct sentinel; intros [-> ->]; reflexivity.
Qed.

Lemma range_succ (n : Z) :
  (0 <= n)%Z -> range (n + 1) = 0%Z :: map Z.of_nat (seq 1 (Z.to_nat n)).
Proof.
  intro Hn. unfold range.
  replace (Z.to_nat (n + 1)) with (S (Z.to_nat n)) by lia. reflexivity.
Qed.

(** C9. When the interpolation policy is not LINEAR and a control array is
    supplied, the evaluation of a well-formed configuration (at least one
    system step, a non-zero step multiplier, one row of controls per control
    step) raises ValueError in the integration step of system step 0; no
    cost has been called, the reporter is untouched, and
    [evolve_lindblad_discrete] hands back no result.  The policy is looked
    at only where controls are interpolated: without a control array the
    same policy raises nothing. *)
Theorem unsupported_policy_raises_at_first_step :
  forall Lindbladian (controls : controls_array) (pstate : PState) (tag : nat)
         (s : Store),
    interpolation_policy pstate = UNSUPPORTED tag ->
    (0 <= final_system_step pstate)%Z ->
    system_step_multiplier pstate <> 0%Z ->
    (0 <= final_control_step pstate)%Z ->
    Z.of_nat (length controls) = (final_control_step pstate + 1)%Z ->
    _evolve_step_lindblad_discrete Lindbladian (initial_densities pstate)
      (dt pstate) (IZR 0 * dt pstate) (0 =? final_control_step pstate)%Z 0%Z
      (Some controls) (hamiltonian pstate) (interpolation_policy pstate)
      (lindblad_data pstate) (operation_policy pstate)
    = inl ValueError
    /\ _evaluate_lindblad_discrete Lindbladian (Some controls) pstate s
       = (s, inl ValueError)
    /\ evolve_lindblad_discrete Lindbladian (Some controls) pstate
       = inl ValueError
    /\ (forall t1 t2 t4 sentinel step,
          rk4_controls t1 t2 t4 sentinel step None (UNSUPPORTED tag)
          = inr (None, None, None, None)).
Proof.
  intros Lindbladian controls pstate tag s Hpolicy Hsteps Hmult Hfinal Hrows.
  assert (Hstep :
    _evolve_step_lindblad_discrete Lindbladian (initial_densities pstate)
      (dt pstate) (IZR 0 * dt pstate) (0 =? final_control_step pstate)%Z 0%Z
      (Some controls) (hamiltonian pstate) (interpolation_policy pstate)
      (lindblad_data pstate) (operation_policy pstate)
    = inl ValueError).
  { unfold _evolve_step_lindblad_discrete. rewrite Hpolicy.
    destruct (0 =? final_control_step pstate)%Z eqn:E.
    - apply Z.eqb_eq in E.
      destruct (getitem_in_range controls (0 - 1)%Z) as [cL HL]; [lia|].
      destruct (getitem_in_range controls 0%Z) as [cR HR]; [lia|].
      rewrite (rk4_controls_unsupported _ _ _ true 0%Z controls tag cL cR)
        by (split; assumption).
      reflexivity.
    - apply Z.eqb_neq in E.
      destruct (getitem_in_range controls 0%Z) as [cL HL]; [lia|].
      destruct (getitem_in_range controls (0 + 1)%Z) as [cR HR]; [lia|].
      rewrite (rk4_controls_unsupported _ _ _ false 0%Z controls tag cL cR)
        by (split; assumption).
      reflexivity. }
  assert (Heval : forall s0,
    _evaluate_lindblad_discrete Lindbladian (Some controls) pstate s0
    = (s0, inl ValueError)).
  { intro s0. unfold _evaluate_lindblad_discrete.
    rewrite range_succ by assumption. simpl.
    unfold mbind at 1. unfold mbind at 1.
    unfold system_step_body at 1. unfold mbind at 1. unfold lift at 1.
    unfold divmod. destruct (Z.eqb_spec (system_step_multiplier pstate) 0);
      [contradiction|].
    rewrite Z.div_0_l by assumption. unfold ret at 1.
    unfold mbind at 1. unfold lift at 1. rewrite Hstep. reflexivity. }
  split; [exact Hstep|]. split; [apply Heval|]. split.
  - unfold evolve_lindblad_discrete. rewrite Heval. reflexivity.
  - reflexivity.
Qed.

Lemma unsupported_policy_raises_at_first_step_witness :
  let pstate := sample_pstate 0 (UNSUPPORTED 0) [] [] in
  _evolve_step_lindblad_discrete Models.get_lindbladian
    (initial_densities pstate) (dt pstate) (IZR 0 * dt pstate)
    (0 =? final_control_step pstate)%Z 0%Z (Some [[RtoC 1]])
    (hamiltonian pstate) (interpolation_policy pstate) (lindblad_data pstate)
    (operation_policy pstate)
  = inl ValueError
  /\ _evaluate_lindblad_discrete Models.get_lindbladian (Some [[RtoC 1]])
       pstate empty_store
     = (empty_store, inl ValueError)
  /\ evolve_lindblad_discrete Models.get_lindbladian (Some [[RtoC 1]]) pstate
     = inl ValueError
  /\ (forall t1 t2 t4 sentinel step,
        rk4_controls t1 t2 t4 sentinel step None (UNSUPPORTED 0)
        = inr (None, None, None, None)).
Proof.
  apply (unsupported_policy_raises_at_first_step Models.get_lindbladian
           [[RtoC 1]] (sample_pstate 0 (UNSUPPORTED 0) [] []) 0%nat empty_store).
  - reflexivity.
  - simpl. lia.
  - simpl. discriminate.
  - simpl. lia.
  - reflexivity.
Defined.

(** ** The evaluation loop and its cost calls *)

Lemma mbind_inv {A B : Type} (c : M A) (k : A -> M B) (s s' : Store) (b : B) :
  mbind c k s = (s', inr b) ->
  exists s1 a, c s = (s1, inr a) /\ k a s1 = (s', inr b).
Proof.
  unfold mbind. destruct (c s) as [s1 [e|a]]; intro H.
  - discriminate.
  - now exists s1, a.
Qed.

Section EvaluationProofs.

Variable Lindbladian :
  batch -> option vec -> option mat -> option (list mat) -> OperationPolicy ->
  result batch.
Variable controls : option controls_array.
Variable pstate : PState.

Lemma cost_loop_spec (kind : CostKind) (system_step : Z) (densities : batch) :
  forall (cs : list Cost) (first : nat) (total : R) (s s' : Store) (v : R),
    for_each (combine (seq first (length cs)) cs)
      (fun '(i, cost) total_error =>
         error <~ invoke kind i cost controls densities system_step
                         (operation_policy pstate) ;;
         mret (total_error + error))
      total s = (s', inr v) ->
    let calls :=
      cost_calls_from controls pstate first kind cs system_step densities in
    invocations s' = invocations s ++ calls
    /\ v = add_contributions calls total
    /\ Forall returned calls
    /\ same_objects s s'.
Proof.
  induction cs as [|cost cs IH]; intros first total s s' v Hrun; simpl in *.
  - inversion Hrun; subst. rewrite app_nil_r. unfold same_objects.
    repeat split; constructor.
  - apply mbind_inv in Hrun. destruct Hrun as (s1 & total1 & Hbody & Hrest).
    apply mbind_inv in Hbody. destruct Hbody as (s2 & error & Hcall & Hret).
    inversion Hret; subst s2 total1; clear Hret.
    unfold invoke in Hcall. inversion Hcall as [[Hs1 Herr]]; clear Hcall.
    apply IH in Hrest. destruct Hrest as (Hinv & Hv & Hok & Hsame).
    rewrite <- Hs1 in Hinv, Hsame. unfold cost_calls_from in *. simpl in *.
    repeat split.
    + rewrite Hinv, <- app_assoc. rewrite Herr. reflexivity.
    + rewrite Hv. unfold add_contributions. simpl.
      unfold contribution at 3. simpl. rewrite Herr. reflexivity.
    + constructor; [|exact Hok]. exists error. simpl. exact Herr.
    + apply Hsame.
    + apply Hsame.
    + apply Hsame.
Qed.

Lemma for_each_cons {A S : Type} (x : A) (xs : list A) (body : A -> S -> M S)
    (acc : S) :
  for_each (x :: xs) body acc
  = (acc' <~ body x acc ;; for_each xs body acc').
Proof. reflexivity. Qed.

Lemma lift_inv {A : Type} (r : result A) (s s' : Store) (a : A) :
  lift r s = (s', inr a) -> s' = s /\ r = inr a.
Proof. unfold lift. intro H. inversion H. auto. Qed.

Lemma add_contributions_app (l1 l2 : list Invocation) (total : R) :
  add_contributions (l1 ++ l2) total
  = add_contributions l2 (add_contributions l1 total).
Proof. unfold add_contributions. apply fold_left_app. Qed.

(** One pass through the body of the loop over the system steps. *)
Lemma system_step_body_spec (k : nat) (d : batch) (total : R) (s s' : Store)
    (d' : batch) (v : R) :
  densities_after Lindbladian controls pstate k = inr d ->
  system_step_body Lindbladian controls pstate (Z.of_nat k) (d, total) s
  = (s', inr (d', v)) ->
  let calls := calls_at Lindbladian controls pstate (Z.of_nat k) in
  invocations s' = invocations s ++ calls
  /\ v = add_contributions calls total
  /\ Forall returned calls
  /\ densities_after Lindbladian controls pstate (S k) = inr d'
  /\ grape_result s' = grape_result s /\ saved s' = saved s
  /\ (Z.of_nat k = final_system_step pstate ->
      Models.final_densities (reporter s') = Some (Plain d') /\
      Models.total_error (reporter s') = Some v).
Proof.
  intros Hk Hrun. unfold system_step_body in Hrun.
  apply mbind_inv in Hrun. destruct Hrun as (s1 & [control_step r] & Hdiv & Hrun).
  apply lift_inv in Hdiv. destruct Hdiv as [-> Hdiv].
  apply mbind_inv in Hrun. destruct Hrun as (s1 & d1 & Hstep & Hrun).
  apply lift_inv in Hstep. destruct Hstep as [-> Hstep].
  assert (Hafter : densities_after Lindbladian controls pstate (S k) = inr d1).
  { simpl. rewrite Hk. simpl. rewrite Hdiv. simpl. exact Hstep. }
  unfold calls_at. rewrite Nat2Z.id, Hafter.
  destruct (Z.of_nat k =? final_system_step pstate)%Z eqn:Efinal.
  - apply mbind_inv in Hrun. destruct Hrun as (s1 & t1 & Hcosts & Hrun).
    apply cost_loop_spec in Hcosts.
    destruct Hcosts as (Hinv & Hv & Hok & Hrep & Hres & Hsaved).
    unfold mbind, modify, mret in Hrun. simpl in Hrun.
    inversion Hrun; subst s' d' v; clear Hrun. simpl.
    repeat split; auto.
  - apply mbind_inv in Hrun. destruct Hrun as (s1 & t1 & Hcosts & Hrun).
    apply cost_loop_spec in Hcosts.
    destruct Hcosts as (Hinv & Hv & Hok & Hrep & Hres & Hsaved).
    unfold mret in Hrun. inversion Hrun; subst s' d' v; clear Hrun. simpl.
    apply Z.eqb_neq in Efinal.
    repeat split; auto; contradiction.
Qed.

(** The loop over a stretch of system steps. *)
Lemma step_loop_spec :
  forall (n k : nat) (d : batch) (total : R) (s s' : Store) (d' : batch)
         (v : R),
    densities_after Lindbladian controls pstate k = inr d ->
    for_each (map Z.of_nat (seq k n))
      (system_step_body Lindbladian controls pstate) (d, total) s
    = (s', inr (d', v)) ->
    let calls :=
      flat_map (calls_at Lindbladian controls pstate)
        (map Z.of_nat (seq k n)) in
    invocations s' = invocations s ++ calls
    /\ v = add_contributions calls total
    /\ Forall returned calls
    /\ densities_after Lindbladian controls pstate (k + n) = inr d'
    /\ (forall j, (k <= j < k + n)%nat ->
        exists dj, densities_after Lindbladian controls pstate (S j) = inr dj)
    /\ grape_result s' = grape_result s /\ saved s' = saved s.
Proof.
  induction n as [|n IH]; intros k d total s s' d' v Hk Hrun; simpl in *.
  - inversion Hrun; subst. rewrite app_nil_r, Nat.add_0_r.
    repeat split; auto. intros j Hj. lia.
  - apply mbind_inv in Hrun. destruct Hrun as (s1 & [d1 t1] & Hbody & Hrest).
    apply system_step_body_spec in Hbody; [|exact Hk].
    destruct Hbody as (Hinv1 & Hv1 & Hok1 & Hafter & Hres1 & Hsaved1 & _).
    apply IH in Hrest; [|exact Hafter].
    destruct Hrest as (Hinv & Hv & Hok & Hend & Hall & Hres & Hsaved).
    repeat split.
    + rewrite Hinv, Hinv1, app_assoc. reflexivity.
    + rewrite add_contributions_app, <- Hv1. exact Hv.
    + apply Forall_app. split; assumption.
    + rewrite <- Hend. f_equal. lia.
    + intros j Hj. destruct (Nat.eq_dec j k) as [->|Hne].
      * now exists d1.
      * apply Hall. lia.
    + congruence.
    + congruence.
Qed.

Lemma cost_loop_calls (kind : CostKind) (system_step : Z) (densities : batch) :
  forall (cs : list (nat * Cost)) (total : R) (s s' : Store) (r : result R),
    for_each cs
      (fun '(i, cost) total_error =>
         error <~ invoke kind i cost controls densities system_step
                         (operation_policy pstate) ;;
         mret (total_error + error))
      total s = (s', r) ->
    exists calls,
      invocations s' = invocations s ++ calls
      /\ Forall (fun i => inv_kind i = kind
                          /\ inv_system_step i = system_step
                          /\ inv_densities i = densities) calls.
Proof.
  induction cs as [|[n cost] cs IH]; intros total s s' r Hrun; simpl in Hrun.
  - inversion Hrun; subst. exists []. rewrite app_nil_r. auto.
  - unfold mbind at 1 in Hrun. unfold mbind at 1 in Hrun.
    unfold invoke at 1 in Hrun.
    destruct (call_cost cost controls densities system_step
                (operation_policy pstate)) as [e|error] eqn:Hcall.
    + inversion Hrun; subst. eexists. split; [reflexivity|].
      constructor; [|constructor]. simpl. auto.
    + unfold mret at 1 in Hrun. apply IH in Hrun.
      destruct Hrun as (calls & Hinv & Hall). simpl in Hinv.
      eexists. split.
      * rewrite Hinv, <- app_assoc. reflexivity.
      * constructor; [simpl; auto | exact Hall].
Qed.

Lemma system_step_body_calls (k : nat) (d : batch) (total : R) (s s' : Store)
    (r : result (batch * R)) :
  densities_after Lindbladian controls pstate k = inr d ->
  system_step_body Lindbladian controls pstate (Z.of_nat k) (d, total) s
  = (s', r) ->
  (exists calls,
      invocations s' = invocations s ++ calls
      /\ Forall (routed_between Lindbladian controls pstate k (S k)) calls)
  /\ (forall d' v, r = inr (d', v) ->
        densities_after Lindbladian controls pstate (S k) = inr d').
Proof.
  intros Hk Hrun. unfold system_step_body in Hrun.
  unfold mbind at 1 in Hrun. unfold lift at 1 in Hrun.
  destruct (divmod (Z.of_nat k) (system_step_multiplier pstate))
    as [e|[control_step rem]] eqn:Hdiv.
  { inversion Hrun; subst. split; [|discriminate].
    exists []. rewrite app_nil_r. auto. }
  unfold mbind at 1 in Hrun. unfold lift at 1 in Hrun.
  destruct (_evolve_step_lindblad_discrete Lindbladian d (dt pstate)
              (IZR (Z.of_nat k) * dt pstate)
              (control_step =? final_control_step pstate)%Z control_step
              controls (hamiltonian pstate) (interpolation_policy pstate)
              (lindblad_data pstate) (operation_policy pstate))
    as [e|d1] eqn:Hstep.
  { inversion Hrun; subst. split; [|discriminate].
    exists []. rewrite app_nil_r. auto. }
  assert (Hafter : densities_after Lindbladian controls pstate (S k) = inr d1).
  { simpl. rewrite Hk. simpl. rewrite Hdiv. simpl. exact Hstep. }
  assert (Hrouted : forall kind calls,
    (kind = TerminalCost <-> Z.of_nat k = final_system_step pstate) ->
    Forall (fun i => inv_kind i = kind /\ inv_system_step i = Z.of_nat k
                     /\ inv_densities i = d1) calls ->
    Forall (routed_between Lindbladian controls pstate k (S k)) calls).
  { intros kind calls Hkind Hall. eapply Forall_impl; [|exact Hall].
    intros i (Hi1 & Hi2 & Hi3). exists k.
    rewrite Hi1, Hi3. repeat split; auto; try lia; apply Hkind. }
  destruct (Z.eqb_spec (Z.of_nat k) (final_system_step pstate)) as [Hfin|Hfin];
    unfold mbind at 1 in Hrun; unfold accumulate_costs in Hrun;
    match type of Hrun with
    | (let (_, _) := ?run in _) = _ => destruct run as [s1 [e|t1]] eqn:Hcosts
    end;
    apply cost_loop_calls in Hcosts; destruct Hcosts as (calls & Hinv & Hall).
  - inversion Hrun; subst. split; [|discriminate].
    exists calls. split; [exact Hinv|].
    apply (Hrouted TerminalCost); [tauto | exact Hall].
  - unfold mbind, modify, mret in Hrun. simpl in Hrun.
    inversion Hrun; subst. simpl. split.
    + exists calls. split; [exact Hinv|].
      apply (Hrouted TerminalCost); [tauto | exact Hall].
    + intros d' v Heq. inversion Heq; subst. exact Hafter.
  - inversion Hrun; subst. split; [|discriminate].
    exists calls. split; [exact Hinv|].
    apply (Hrouted StepCost); [split; [discriminate | contradiction] | exact Hall].
  - unfold mret in Hrun. inversion Hrun; subst. split.
    + exists calls. split; [exact Hinv|].
      apply (Hrouted StepCost);
        [split; [discriminate | contradiction] | exact Hall].
    + intros d' v Heq. inversion Heq; subst. exact Hafter.
Qed.

Lemma routed_between_weaken (lo hi lo' hi' : nat) (calls : list Invocation) :
  (lo' <= lo)%nat -> (hi <= hi')%nat ->
  Forall (routed_between Lindbladian controls pstate lo hi) calls ->
  Forall (routed_between Lindbladian controls pstate lo' hi') calls.
Proof.
  intros Hlo Hhi. apply Forall_impl.
  intros i (j & H1 & H2 & H3). exists j. repeat split; try tauto; lia.
Qed.

Lemma step_loop_calls :
  forall (n k : nat) (d : batch) (total : R) (s s' : Store)
         (r : result (batch * R)),
    densities_after Lindbladian controls pstate k = inr d ->
    for_each (map Z.of_nat (seq k n))
      (system_step_body Lindbladian controls pstate) (d, total) s
    = (s', r) ->
    exists calls,
      invocations s' = invocations s ++ calls
      /\ Forall (routed_between Lindbladian controls pstate k (k + n)) calls.
Proof.
  induction n as [|n IH]; intros k d total s s' r Hk Hrun.
  - simpl in Hrun. inversion Hrun; subst. exists []. rewrite app_nil_r. auto.
  - change (map Z.of_nat (seq k (S n)))
      with (Z.of_nat k :: map Z.of_nat (seq (S k) n)) in Hrun.
    rewrite for_each_cons in Hrun. unfold mbind at 1 in Hrun.
    destruct (system_step_body Lindbladian controls pstate (Z.of_nat k)
                (d, total) s) as [s1 [e|[d1 t1]]] eqn:Hbody;
      apply system_step_body_calls in Hbody; try exact Hk;
      destruct Hbody as [(calls1 & Hinv1 & Hall1) Hafter].
    + inversion Hrun; subst. exists calls1. split; [exact Hinv1|].
      eapply routed_between_weaken; [| |exact Hall1]; lia.
    + apply IH in Hrun; [|now apply (Hafter d1 t1)].
      destruct Hrun as (calls & Hinv & Hall).
      exists (calls1 ++ calls). split.
      * rewrite Hinv, Hinv1, app_assoc. reflexivity.
      * apply Forall_app. split.
        -- eapply routed_between_weaken; [| |exact Hall1]; lia.
        -- eapply routed_between_weaken; [| |exact Hall]; lia.
Qed.

End EvaluationProofs.

(** C2. Every cost call of an evaluation, whether it returns or raises, is
    a terminal cost at the final system step or a step cost at a non-final
    system step, against the batch that the integrator has just produced at
    that step.  In an evaluation that returns, the cost calls are, system
    step by system step, every step cost at each non-final step and every
    terminal cost at the final step, and nothing else; each of them returned,
    and the total error is the sum of their contributions. *)
Theorem evaluation_cost_calls :
  forall Lindbladian (controls : option controls_array) (pstate : PState)
         (s : Store),
    (exists calls,
        invocations
          (fst (_evaluate_lindblad_discrete Lindbladian controls pstate s))
        = invocations s ++ calls
        /\ Forall (routed Lindbladian controls pstate) calls)
    /\ (forall (s' : Store) (total : R),
          _evaluate_lindblad_discrete Lindbladian controls pstate s
          = (s', inr total) ->
          let calls := calls_of_run Lindbladian controls pstate in
          invocations s' = invocations s ++ calls
          /\ total = add_contributions calls 0
          /\ Forall returned calls
          /\ (forall k : Z,
                (0 <= k <= final_system_step pstate)%Z ->
                exists densities,
                  densities_after Lindbladian controls pstate
                    (S (Z.to_nat k))
                  = inr densities
                  /\ calls_at Lindbladian controls pstate k
                     = if (k =? final_system_step pstate)%Z
                       then cost_calls controls pstate TerminalCost
                              (costs pstate) k densities
                       else cost_calls controls pstate StepCost
                              (step_costs pstate) k densities)).
Proof.
  intros Lindbladian controls pstate s. split.
  - unfold _evaluate_lindblad_discrete, range. unfold mbind at 1.
    destruct (for_each
                (map Z.of_nat (seq 0 (Z.to_nat (final_system_step pstate + 1))))
                (system_step_body Lindbladian controls pstate)
                (initial_densities pstate, 0) s) as [s1 r] eqn:Hloop.
    apply step_loop_calls in Hloop; [|reflexivity].
    destruct Hloop as (calls & Hinv & Hall).
    exists calls. split.
    + destruct r as [e|[d v]]; exact Hinv.
    + eapply Forall_impl; [|exact Hall].
      intros i (j & Hstep & Hj & Hkind & Hd). unfold routed.
      rewrite Hstep, Nat2Z.id. repeat split; try tauto; lia.
  - intros s' total Hrun. cbv zeta.
    unfold _evaluate_lindblad_discrete in Hrun.
    apply mbind_inv in Hrun. destruct Hrun as (s1 & [d' v] & Hloop & Hret).
    unfold mret in Hret. inversion Hret; subst s1 v; clear Hret.
    unfold range in Hloop. apply step_loop_spec in Hloop; [|reflexivity].
    destruct Hloop as (Hinv & Hv & Hok & _ & Hall & _).
    unfold calls_of_run, range.
    split; [exact Hinv|]. split; [exact Hv|]. split; [exact Hok|].
    intros k Hk. destruct (Hall (Z.to_nat k)) as [dk Hdk]; [lia|].
    exists dk. split; [exact Hdk|]. unfold calls_at. now rewrite Hdk.
Qed.

Lemma evaluation_cost_calls_witness :
  let pstate := sample_pstate 1 LINEAR [unit_cost] [unit_cost] in
  let calls := calls_of_run Models.get_lindbladian None pstate in
  (exists calls',
      invocations
        (fst (_evaluate_lindblad_discrete Models.get_lindbladian None pstate
                empty_store))
      = invocations empty_store ++ calls'
      /\ Forall (routed Models.get_lindbladian None pstate) calls')
  /\ invocations (fst sample_run) = invocations empty_store ++ calls
  /\ 0 + 1 + 1 = add_contributions calls 0
  /\ Forall returned calls
  /\ (forall k : Z,
        (0 <= k <= final_system_step pstate)%Z ->
        exists densities,
          densities_after Models.get_lindbladian None pstate (S (Z.to_nat k))
          = inr densities
          /\ calls_at Models.get_lindbladian None pstate k
             = if (k =? final_system_step pstate)%Z
               then cost_calls None pstate TerminalCost (costs pstate)
                      k densities
               else cost_calls None pstate StepCost (step_costs pstate)
                      k densities).
Proof.
  destruct (evaluation_cost_calls Models.get_lindbladian None
              (sample_pstate 1 LINEAR [unit_cost] [unit_cost]) empty_store)
    as [Hany Hreturned].
  split; [exact Hany|].
  exact (Hreturned (fst sample_run) (0 + 1 + 1) eq_refl).
Defined.

(** ** [TargetDensityInfidelity] under the driver *)

Lemma call_target_density_infidelity self controls densities step op :
  call_cost (TargetDensityInfidelity_as_cost self) controls densities step op
  = inl TypeError.
Proof. reflexivity. Qed.

Lemma target_density_infidelity_cost_raises self controls densities step :
  exists e,
    TargetDensityInfidelity_cost self controls densities step = inl e.
Proof.
  unfold TargetDensityInfidelity_cost.
  destruct (anp_matmul (target_densities_dagger self) densities) as [e|prod];
    simpl; [now exists e|].
  destruct (index_all_0_0 prod) as [e|sliced]; simpl; [now exists e|].
  now exists ValueError.
Qed.

Lemma in_cost_calls (controls : option controls_array) (pstate : PState)
    (kind : CostKind) (system_step : Z) (densities : batch) (c : Cost) :
  forall (cs : list Cost) (first : nat),
    In c cs ->
    exists i,
      In i (cost_calls_from controls pstate first kind cs system_step densities)
      /\ inv_outcome i
         = call_cost c controls densities system_step (operation_policy pstate).
Proof.
  induction cs as [|c' cs IH]; intros first Hin; simpl in Hin;
    [contradiction|]. destruct Hin as [Heq|Hin].
  - subst c'. eexists. split; [left; reflexivity|]. reflexivity.
  - destruct (IH (S first) Hin) as (i & Hi & Hout).
    exists i. split; [right; exact Hi | exact Hout].
Qed.

(** No evaluation whose cost list holds a [TargetDensityInfidelity] and that
    has a final system step returns. *)
Lemma evaluation_with_target_density_infidelity_raises :
  forall Lindbladian controls pstate s self,
    In (TargetDensityInfidelity_as_cost self) (costs pstate) ->
    (0 <= final_system_step pstate)%Z ->
    exists e,
      snd (_evaluate_lindblad_discrete Lindbladian controls pstate s) = inl e.
Proof.
  intros Lindbladian controls pstate s self Hin Hfinal.
  destruct (_evaluate_lindblad_discrete Lindbladian controls pstate s)
    as [s' [e|total]] eqn:Hrun; simpl; [now exists e|]. exfalso.
  unfold _evaluate_lindblad_discrete in Hrun.
  apply mbind_inv in Hrun. destruct Hrun as (s1 & [d' v] & Hloop & _).
  unfold range in Hloop. apply step_loop_spec in Hloop; [|reflexivity].
  destruct Hloop as (_ & _ & Hok & _ & Hall & _).
  set (final := final_system_step pstate) in *.
  destruct (Hall (Z.to_nat final)) as [d Hd]; [lia|].
  destruct (in_cost_calls controls pstate TerminalCost final d _
              (costs pstate) 0%nat Hin) as (i & Hi & Hout).
  rewrite Forall_forall in Hok.
  destruct (Hok i) as [error Herror].
  - apply in_flat_map. exists final. split.
    + apply in_map_iff. exists (Z.to_nat final). split; [lia|].
      apply in_seq. lia.
    + unfold calls_at. rewrite Hd. fold final. rewrite Z.eqb_refl. exact Hi.
  - rewrite Hout, call_target_density_infidelity in Herror. discriminate.
Qed.

(** C3. The driver's call of [TargetDensityInfidelity.cost] never succeeds:
    the keyword [operation_policy] that the driver passes names no parameter
    of the method, so the call is a TypeError, no evaluation that has this
    cost in its list and a final system step returns, and the sample
    evaluation raises TypeError at the final system step; and the method
    itself, called with its three arguments as the tests do, raises instead
    of returning
    [cost_multiplier * (1 - (1/D) * sum_i |tr(T_i^dagger rho_i)/H|^2)],
    which is 3/4 on the second test of the module. *)
Theorem target_density_infidelity_call_raises :
  (forall self controls densities step op,
      call_cost (TargetDensityInfidelity_as_cost self) controls densities step
        op
      = inl TypeError)
  /\ (forall Lindbladian controls pstate s self,
        In (TargetDensityInfidelity_as_cost self) (costs pstate) ->
        (0 <= final_system_step pstate)%Z ->
        exists e,
          snd (_evaluate_lindblad_discrete Lindbladian controls pstate s)
          = inl e)
  /\ _evaluate_lindblad_discrete Models.get_lindbladian None
       (sample_pstate 0 LINEAR
          [TargetDensityInfidelity_as_cost
             (TargetDensityInfidelity_init test_density 1)] [])
       empty_store
     = (record_invocation
          {| inv_kind := TerminalCost; inv_index := 0; inv_system_step := 0;
             inv_densities := [[[RtoC 1]]]; inv_outcome := inl TypeError |}
          empty_store,
        inl TypeError)
  /\ (forall self controls densities step,
        exists e,
          TargetDensityInfidelity_cost self controls densities step = inl e)
  /\ TargetDensityInfidelity_cost
       (TargetDensityInfidelity_init test_density 1) None test_density 0
     = inl ValueError
  /\ (exists v,
        target_density_infidelity_spec 1 test_density test_density = inr v
        /\ v = 3 / 4).
Proof.
  split; [exact call_target_density_infidelity|].
  split; [exact evaluation_with_target_density_infidelity_raises|].
  split.
  { unfold _evaluate_lindblad_discrete, sample_pstate, range. simpl.
    unfold mbind, lift, divmod. simpl.
    match goal with
    | |- context [Cadd (RtoC 1) ?x] =>
        replace (Cadd (RtoC 1) x) with (RtoC 1) by (apply C_eq; simpl; lra)
    end.
    reflexivity. }
  split; [exact target_density_infidelity_cost_raises|].
  split; [reflexivity|].
  eexists. split; [reflexivity|]. simpl. lra.
Qed.

(** The sample evaluation with a [TargetDensityInfidelity] does not return. *)
Lemma target_density_infidelity_call_raises_witness :
  exists e,
    snd (_evaluate_lindblad_discrete Models.get_lindbladian None
           (sample_pstate 0 LINEAR
              [TargetDensityInfidelity_as_cost
                 (TargetDensityInfidelity_init test_density 1)] [])
           empty_store)
    = inl e.
Proof.
  apply (proj1 (proj2 target_density_infidelity_call_raises)
           Models.get_lindbladian None
           (sample_pstate 0 LINEAR
              [TargetDensityInfidelity_as_cost
                 (TargetDensityInfidelity_init test_density 1)] [])
           empty_store (TargetDensityInfidelity_init test_density 1)).
  - left. reflexivity.
  - simpl. lia.
Defined.

(** ** The gradient wrapper *)

Section GradientWrapper.

Variable Lindbladian :
  batch -> option vec -> option mat -> option (list mat) -> OperationPolicy ->
  result batch.
Variable clip_control_norms : list R -> controls_array -> controls_array.
Variable ans_jacobian :
  (option controls_array -> PState -> M R) ->
  controls_array -> PState -> M (R * controls_array).

Variable pstate : PState.
Variable flat : list R.
Variable s s1 : Store.
Variable structured : controls_array.
Variable total : R.
Variable raw : controls_array.

Let controls : controls_array :=
  clip_control_norms (max_control_norms pstate) structured.
Let grads : controls_array :=
  if complex_controls pstate then conjugate raw else raw.

Hypothesis Hslap :
  slap_controls (complex_controls pstate) flat (controls_shape pstate)
  = inr structured.
Hypothesis Hjacobian :
  ans_jacobian (_evaluate_lindblad_discrete Lindbladian) controls pstate s
  = (s1, inr (total, raw)).

(** The forward pass left boxed densities: the wrapper returns. *)
Lemma eldj_wrap_boxed (d : batch) (it : Z) :
  Models.final_densities (reporter s1) = Some (Box d) ->
  Models.iteration (reporter s1) = Some it ->
  _eldj_wrap Lindbladian clip_control_norms ans_jacobian flat pstate s
  = (on_reporter (set_iteration (it + 1))
       (record_log
          {| log_controls := controls; log_final_densities := d;
             log_total_error := total; log_grads := grads;
             log_iteration := it |}
          (if lt_ext total (best_total_error (grape_result s1))
           then on_result (fun _ => overwritten controls d it total) s1
           else s1)),
     inr (strip_controls (complex_controls pstate) grads)).
Proof.
  intros Hbox Hit. unfold _eldj_wrap.
  unfold mbind at 1. unfold lift at 1. rewrite Hslap.
  unfold mbind at 1. fold controls. rewrite Hjacobian.
  unfold mbind at 1. unfold lift at 1. rewrite Hbox. simpl.
  unfold mbind, gets, modify, lift, mret. simpl.
  destruct (lt_ext total (best_total_error (grape_result s1)));
    simpl; rewrite ?Hit; simpl; rewrite ?Hit; simpl; rewrite ?Hit;
    reflexivity.
Qed.

(** The forward pass left plain densities: the local variable
    [final_densities] is never assigned, and the wrapper stops at its first
    use, after [best_controls] has been overwritten when the total error
    improved. *)
Lemma eldj_wrap_plain (d : batch) :
  Models.final_densities (reporter s1) = Some (Plain d) ->
  _eldj_wrap Lindbladian clip_control_norms ans_jacobian flat pstate s
  = (if lt_ext total (best_total_error (grape_result s1))
     then on_result (set_best_controls controls) s1
     else s1,
     inl UnboundLocalError).
Proof.
  intros Hplain. unfold _eldj_wrap.
  unfold mbind at 1. unfold lift at 1. rewrite Hslap.
  unfold mbind at 1. fold controls. rewrite Hjacobian.
  unfold mbind at 1. unfold lift at 1. rewrite Hplain. simpl.
  unfold mbind, gets, modify, lift, mret. simpl.
  destruct (lt_ext total (best_total_error (grape_result s1)));
    reflexivity.
Qed.

(** The forward pass assigned no densities at all. *)
Lemma eldj_wrap_no_densities :
  Models.final_densities (reporter s1) = None ->
  _eldj_wrap Lindbladian clip_control_norms ans_jacobian flat pstate s
  = (s1, inl AttributeError).
Proof.
  intros Hnone. unfold _eldj_wrap.
  unfold mbind at 1. unfold lift at 1. rewrite Hslap.
  unfold mbind at 1. fold controls. rewrite Hjacobian.
  unfold mbind at 1. unfold lift at 1. rewrite Hnone. reflexivity.
Qed.

(** The reporter has no iteration counter. *)
Lemma eldj_wrap_no_iteration (d : batch) :
  Models.final_densities (reporter s1) = Some (Box d) ->
  Models.iteration (reporter s1) = None ->
  snd (_eldj_wrap Lindbladian clip_control_norms ans_jacobian flat pstate s)
  = inl AttributeError.
Proof.
  intros Hbox Hit. unfold _eldj_wrap.
  unfold mbind at 1. unfold lift at 1. rewrite Hslap.
  unfold mbind at 1. fold controls. rewrite Hjacobian.
  unfold mbind at 1. unfold lift at 1. rewrite Hbox. simpl.
  unfold mbind, gets, modify, lift, mret. simpl.
  destruct (lt_ext total (best_total_error (grape_result s1)));
    simpl; rewrite ?Hit; reflexivity.
Qed.

End GradientWrapper.

(** How far a wrapper call got: it stopped in [slap_controls], or in the
    differentiated forward pass, or it went on with a total error and a
    jacobian. *)
Lemma eldj_wrap_inv Lindbladian clip_control_norms ans_jacobian flat pstate
    s s' (r : result (list R)) :
  _eldj_wrap Lindbladian clip_control_norms ans_jacobian flat pstate s
  = (s', r) ->
  (exists e, r = inl e /\ s' = s)
  \/ (exists structured e,
         r = inl e
         /\ ans_jacobian (_evaluate_lindblad_discrete Lindbladian)
              (clip_control_norms (max_control_norms pstate) structured)
              pstate s
            = (s', inl e))
  \/ (exists structured s1 total raw,
         slap_controls (complex_controls pstate) flat (controls_shape pstate)
         = inr structured
         /\ ans_jacobian (_evaluate_lindblad_discrete Lindbladian)
              (clip_control_norms (max_control_norms pstate) structured)
              pstate s
            = (s1, inr (total, raw))).
Proof.
  intro Hrun. unfold _eldj_wrap in Hrun.
  unfold mbind at 1 in Hrun. unfold lift at 1 in Hrun.
  destruct (slap_controls (complex_controls pstate) flat
              (controls_shape pstate)) as [e|structured] eqn:Hslap.
  - left. exists e. now inversion Hrun.
  - unfold mbind at 1 in Hrun.
    destruct (ans_jacobian (_evaluate_lindblad_discrete Lindbladian)
                (clip_control_norms (max_control_norms pstate) structured)
                pstate s) as [s1 [e|[total raw]]] eqn:Hjac.
    + right. left. exists structured, e. inversion Hrun; subst. auto.
    + right. right. now exists structured, s1, total, raw.
Qed.

Local Opaque _evolve_step_lindblad_discrete.

(** The forward pass on one control step with the control [1], without a
    Hamiltonian and without costs: the densities stay as they are and the
    total error is 0. *)
Lemma sample_evaluation (s : Store) :
  _evaluate_lindblad_discrete Models.get_lindbladian (Some [[mkC 1 0]])
    (sample_pstate 0 LINEAR [] []) s
  = (on_reporter (set_total_error 0)
       (on_reporter (set_final_densities (Plain [[[RtoC 1]]])) s),
     inr 0).
Proof.
  unfold _evaluate_lindblad_discrete, sample_pstate, range. simpl.
  unfold mbind, lift, divmod. simpl.
  rewrite evolve_step_absent. unfold rk4_controls. simpl.
  unfold interpolate_linear.
  destruct (Req_dec_T (0 * 1 + 1 - 0 * 1) 0) as [E|_]; [exfalso; lra|].
  reflexivity.
Qed.

(** The same forward pass with the terminal cost [half_cost]: the cost is
    called once, on the unchanged densities, and the total error is the
    float 0.5. *)
Lemma sample_evaluation_with_cost (s : Store) :
  _evaluate_lindblad_discrete Models.get_lindbladian (Some [[mkC 1 0]])
    (sample_pstate 0 LINEAR [half_cost] []) s
  = (after_half_cost_evaluation s, inr 0.5).
Proof.
  unfold _evaluate_lindblad_discrete, sample_pstate, range. simpl.
  unfold mbind, lift, divmod. simpl.
  rewrite evolve_step_absent. unfold rk4_controls. simpl.
  unfold interpolate_linear.
  destruct (Req_dec_T (0 * 1 + 1 - 0 * 1) 0) as [E|_]; [exfalso; lra|].
  simpl. unfold accumulate_costs, enumerate. simpl.
  unfold mbind, invoke, modify, mret. simpl.
  unfold after_half_cost_evaluation, half_cost_call.
  rewrite Rplus_0_l. reflexivity.
Qed.

Local Transparent _evolve_step_lindblad_discrete.

(** C10. A call of [_eldj_wrap] whose forward pass leaves plain (unboxed)
    final densities in the reporter, as it does when the densities do not
    depend on the controls, never binds the local variable
    [final_densities]: the wrapper raises UnboundLocalError at its first
    use, and neither the logging collaborator is called nor a gradient
    returned. *)
Theorem eldj_wrap_final_densities_unbound :
  forall Lindbladian clip_control_norms ans_jacobian (pstate : PState)
         (flat : list R) (s s1 : Store) (structured : controls_array)
         (total : R) (raw : controls_array) (d : batch),
    slap_controls (complex_controls pstate) flat (controls_shape pstate)
    = inr structured ->
    ans_jacobian (_evaluate_lindblad_discrete Lindbladian)
      (clip_control_norms (max_control_norms pstate) structured) pstate s
    = (s1, inr (total, raw)) ->
    Models.final_densities (reporter s1) = Some (Plain d) ->
    snd (_eldj_wrap Lindbladian clip_control_norms ans_jacobian flat pstate s)
    = inl UnboundLocalError
    /\ saved (fst (_eldj_wrap Lindbladian clip_control_norms ans_jacobian flat
                     pstate s))
       = saved s1.
Proof.
  intros Lindbladian clip_control_norms ans_jacobian pstate flat s s1
         structured total raw d Hslap Hjac Hplain.
  rewrite (eldj_wrap_plain Lindbladian clip_control_norms ans_jacobian pstate
             flat s s1 structured total raw Hslap Hjac d Hplain).
  split; [reflexivity|].
  destruct (lt_ext total (best_total_error (grape_result s1))); reflexivity.
Qed.

(** The first gradient evaluation of an optimisation without a Hamiltonian
    and with the cost [half_cost]: one complex control with the value 1. *)
Lemma sample_jacobian :
  untraced_jacobian (_evaluate_lindblad_discrete Models.get_lindbladian)
    (no_clip (max_control_norms (sample_pstate 0 LINEAR [half_cost] []))
       [[mkC 1 0]])
    (sample_pstate 0 LINEAR [half_cost] []) grape_store
  = (after_half_cost_evaluation grape_store, inr (0.5, [[C0]])).
Proof.
  unfold untraced_jacobian, no_clip. rewrite sample_evaluation_with_cost.
  reflexivity.
Qed.

(** Without a cost the evaluation returns the integer 0, and the capability
    raises before [_eldj_wrap] reads the final densities: the best result
    is left as it was. *)
Lemma eldj_wrap_without_cost :
  _eldj_wrap Models.get_lindbladian no_clip untraced_jacobian [1; 0]
    (sample_pstate 0 LINEAR [] []) grape_store
  = (on_reporter (set_total_error 0)
       (on_reporter (set_final_densities (Plain [[[RtoC 1]]])) grape_store),
     inl TypeError).
Proof.
  unfold _eldj_wrap. unfold mbind at 1. unfold lift at 1. simpl.
  unfold mbind at 1. unfold untraced_jacobian, no_clip.
  rewrite sample_evaluation. reflexivity.
Qed.

Lemma eldj_wrap_final_densities_unbound_witness :
  snd (_eldj_wrap Models.get_lindbladian no_clip untraced_jacobian [1; 0]
         (sample_pstate 0 LINEAR [half_cost] []) grape_store)
  = inl UnboundLocalError
  /\ saved (fst (_eldj_wrap Models.get_lindbladian no_clip untraced_jacobian
                   [1; 0] (sample_pstate 0 LINEAR [half_cost] [])
                   grape_store))
     = saved (after_half_cost_evaluation grape_store).
Proof.
  apply (eldj_wrap_final_densities_unbound Models.get_lindbladian no_clip
           untraced_jacobian (sample_pstate 0 LINEAR [half_cost] []) [1; 0]
           grape_store (after_half_cost_evaluation grape_store)
           [[mkC 1 0]] 0.5 [[C0]] [[[RtoC 1]]]).
  - reflexivity.
  - exact sample_jacobian.
  - reflexivity.
Defined.

(** C5. The update of the best result is not atomic when the forward pass
    leaves plain final densities: a total error below the stored best
    overwrites [best_controls] alone; the wrapper then raises, and
    [best_final_densities], [best_iteration] and [best_total_error] keep
    their old values, so that [best_total_error] is no longer the minimum of
    the total errors evaluated so far. *)
Theorem best_result_update_not_atomic :
  forall Lindbladian clip_control_norms ans_jacobian (pstate : PState)
         (flat : list R) (s s1 : Store) (structured : controls_array)
         (total : R) (raw : controls_array) (d : batch),
    slap_controls (complex_controls pstate) flat (controls_shape pstate)
    = inr structured ->
    ans_jacobian (_evaluate_lindblad_discrete Lindbladian)
      (clip_control_norms (max_control_norms pstate) structured) pstate s
    = (s1, inr (total, raw)) ->
    Models.final_densities (reporter s1) = Some (Plain d) ->
    lt_ext total (best_total_error (grape_result s1)) = true ->
    let after :=
      grape_result
        (fst (_eldj_wrap Lindbladian clip_control_norms ans_jacobian flat
                pstate s)) in
    best_controls after
    = Some (clip_control_norms (max_control_norms pstate) structured)
    /\ best_final_densities after = best_final_densities (grape_result s1)
    /\ best_iteration after = best_iteration (grape_result s1)
    /\ best_total_error after = best_total_error (grape_result s1)
    /\ snd (_eldj_wrap Lindbladian clip_control_norms ans_jacobian flat
              pstate s)
       = inl UnboundLocalError.
Proof.
  intros Lindbladian clip_control_norms ans_jacobian pstate flat s s1
         structured total raw d Hslap Hjac Hplain Hlt. cbv zeta.
  rewrite (eldj_wrap_plain Lindbladian clip_control_norms ans_jacobian pstate
             flat s s1 structured total raw Hslap Hjac d Hplain).
  rewrite Hlt. simpl. repeat split; reflexivity.
Qed.

Lemma best_result_update_not_atomic_witness :
  let after :=
    grape_result
      (fst (_eldj_wrap Models.get_lindbladian no_clip untraced_jacobian
              [1; 0] (sample_pstate 0 LINEAR [half_cost] []) grape_store)) in
  best_controls after = Some [[mkC 1 0]]
  /\ best_final_densities after = None
  /\ best_iteration after = None
  /\ best_total_error after = PosInf
  /\ snd (_eldj_wrap Models.get_lindbladian no_clip untraced_jacobian [1; 0]
            (sample_pstate 0 LINEAR [half_cost] []) grape_store)
     = inl UnboundLocalError.
Proof.
  apply (best_result_update_not_atomic Models.get_lindbladian no_clip
           untraced_jacobian (sample_pstate 0 LINEAR [half_cost] []) [1; 0]
           grape_store (after_half_cost_evaluation grape_store)
           [[mkC 1 0]] 0.5 [[C0]] [[[RtoC 1]]]).
  - reflexivity.
  - exact sample_jacobian.
  - reflexivity.
  - reflexivity.
Defined.

Lemma conjugate_convention (derivs : list (list (R * R))) :
  conjugate (map (map (fun '(du_dx, du_dy) => mkC du_dx (- du_dy))) derivs)
  = map (map (fun '(du_dx, du_dy) => mkC du_dx du_dy)) derivs.
Proof.
  unfold conjugate. rewrite map_map. apply map_ext; intro row.
  rewrite map_map. apply map_ext; intros [du_dx du_dy]. apply Cconj_minus.
Qed.

Lemma pair_with_snd {A B : Type} (p : A * B) (b : B) :
  snd p = b -> p = (fst p, b).
Proof. destruct p; simpl; intros ->; reflexivity. Qed.

(** C8. With complex controls, the gradient that [_eldj_wrap] returns is the
    stripped elementwise conjugate of the jacobian that the differentiation
    capability produced for the slapped and clipped controls; where the raw
    jacobian holds [du/dx - i du/dy], the conjugate holds [du/dx + i du/dy]. *)
Theorem eldj_wrap_complex_gradient :
  forall Lindbladian clip_control_norms ans_jacobian (pstate : PState)
         (flat : list R) (s s' : Store) (g : list R),
    complex_controls pstate = true ->
    _eldj_wrap Lindbladian clip_control_norms ans_jacobian flat pstate s
    = (s', inr g) ->
    exists structured s1 total raw,
      slap_controls true flat (controls_shape pstate) = inr structured
      /\ ans_jacobian (_evaluate_lindblad_discrete Lindbladian)
           (clip_control_norms (max_control_norms pstate) structured) pstate s
         = (s1, inr (total, raw))
      /\ g = strip_controls true (conjugate raw)
      /\ (forall derivs : list (list (R * R)),
            raw = map (map (fun '(du_dx, du_dy) => mkC du_dx (- du_dy)))
                      derivs ->
            conjugate raw
            = map (map (fun '(du_dx, du_dy) => mkC du_dx du_dy)) derivs).
Proof.
  intros Lindbladian clip_control_norms ans_jacobian pstate flat s s' g
         Hcomplex Hrun.
  destruct (eldj_wrap_inv _ _ _ _ _ _ _ _ Hrun)
    as [(e & He & _)|[(x & e & He & _)
                     |(structured & s1 & total & raw & Hslap & Hjac)]];
    [discriminate | discriminate |].
  exists structured, s1, total, raw.
  assert (Hg : g = strip_controls true (conjugate raw)).
  { destruct (Models.final_densities (reporter s1)) as [[d|d]|] eqn:Hfd.
    - rewrite (eldj_wrap_plain Lindbladian clip_control_norms ans_jacobian pstate flat
             s s1 structured total raw Hslap Hjac d Hfd) in Hrun.
      discriminate.
    - destruct (Models.iteration (reporter s1)) as [it|] eqn:Hit.
      + rewrite (eldj_wrap_boxed Lindbladian clip_control_norms ans_jacobian pstate flat
             s s1 structured total raw Hslap Hjac d it Hfd Hit)
          in Hrun.
        rewrite Hcomplex in Hrun. now inversion Hrun.
      + pose proof (eldj_wrap_no_iteration Lindbladian clip_control_norms ans_jacobian pstate flat
             s s1 structured total raw Hslap Hjac d
                      Hfd Hit) as Hraise.
        rewrite Hrun in Hraise. discriminate.
    - rewrite (eldj_wrap_no_densities Lindbladian clip_control_norms ans_jacobian pstate flat
             s s1 structured total raw Hslap Hjac Hfd)
        in Hrun.
      discriminate. }
  rewrite Hcomplex in Hslap.
  repeat split; try assumption.
  intros derivs ->. apply conjugate_convention.
Qed.

Lemma sample_boxing_jacobian :
  boxing_jacobian sample_raw_jacobian
    (_evaluate_lindblad_discrete Models.get_lindbladian)
    (no_clip (max_control_norms (sample_pstate 0 LINEAR [] [])) [[mkC 1 0]])
    (sample_pstate 0 LINEAR [] []) grape_store
  = (on_reporter (set_final_densities (Box [[[RtoC 1]]]))
       (on_reporter (set_total_error 0)
          (on_reporter (set_final_densities (Plain [[[RtoC 1]]]))
             grape_store)),
     inr (0, [[mkC 2 (- 3)]])).
Proof.
  unfold boxing_jacobian, no_clip. unfold mbind at 1.
  rewrite sample_evaluation. reflexivity.
Qed.

Lemma sample_gradient_returned :
  snd sample_gradient_run
  = inr (strip_controls true (conjugate [[mkC 2 (- 3)]])).
Proof.
  unfold sample_gradient_run.
  rewrite (eldj_wrap_boxed Models.get_lindbladian no_clip
             (boxing_jacobian sample_raw_jacobian)
             (sample_pstate 0 LINEAR [] []) [1; 0] grape_store _
             [[mkC 1 0]] 0 [[mkC 2 (- 3)]] eq_refl sample_boxing_jacobian
             [[[RtoC 1]]] 0%Z eq_refl eq_refl).
  reflexivity.
Qed.

Lemma eldj_wrap_complex_gradient_witness :
  exists structured s1 total raw,
    slap_controls true [1; 0]
      (controls_shape (sample_pstate 0 LINEAR [] []))
    = inr structured
    /\ boxing_jacobian sample_raw_jacobian
         (_evaluate_lindblad_discrete Models.get_lindbladian)
         (no_clip (max_control_norms (sample_pstate 0 LINEAR [] []))
            structured)
         (sample_pstate 0 LINEAR [] []) grape_store
       = (s1, inr (total, raw))
    /\ strip_controls true (conjugate [[mkC 2 (- 3)]])
       = strip_controls true (conjugate raw)
    /\ (forall derivs : list (list (R * R)),
          raw = map (map (fun '(du_dx, du_dy) => mkC du_dx (- du_dy)))
                    derivs ->
          conjugate raw
          = map (map (fun '(du_dx, du_dy) => mkC du_dx du_dy)) derivs).
Proof.
  apply (eldj_wrap_complex_gradient Models.get_lindbladian no_clip
           (boxing_jacobian sample_raw_jacobian)
           (sample_pstate 0 LINEAR [] []) [1; 0] grape_store
           (fst sample_gradient_run)
           (strip_controls true (conjugate [[mkC 2 (- 3)]]))).
  - reflexivity.
  - apply (pair_with_snd sample_gradient_run). exact sample_gradient_returned.
Defined.

(** ** The best result over a run of gradient evaluations that return *)

Lemma best_is_minimum_at_start : best_is_minimum grape_store.
Proof. reflexivity. Qed.

Lemma ext_min_le (x : R) (b : ExtR) : ext_le (ext_min x b) b.
Proof.
  unfold ext_min, lt_ext. destruct b as [y|]; simpl; [|exact I].
  destruct (Rlt_dec x y); simpl; lra.
Qed.

Lemma minimum_of_snoc (errors : list R) (x : R) :
  minimum_of (errors ++ [x]) = ext_min x (minimum_of errors).
Proof. unfold minimum_of. now rewrite fold_left_app. Qed.

Section BoxedRuns.

Variable Lindbladian :
  batch -> option vec -> option mat -> option (list mat) -> OperationPolicy ->
  result batch.
Variable clip_control_norms : list R -> controls_array -> controls_array.
Variable ans_jacobian :
  (option controls_array -> PState -> M R) ->
  controls_array -> PState -> M (R * controls_array).
Variable pstate : PState.

(** The differentiated forward pass touches neither the result nor the log. *)
Hypothesis jacobian_keeps :
  forall controls s s1 r,
    ans_jacobian (_evaluate_lindblad_discrete Lindbladian) controls pstate s
    = (s1, r) ->
    grape_result s1 = grape_result s /\ saved s1 = saved s.

(** It leaves boxed final densities and an iteration counter. *)
Hypothesis jacobian_boxes :
  forall controls s s1 total raw,
    ans_jacobian (_evaluate_lindblad_discrete Lindbladian) controls pstate s
    = (s1, inr (total, raw)) ->
    exists d it,
      Models.final_densities (reporter s1) = Some (Box d)
      /\ Models.iteration (reporter s1) = Some it.

Lemma eldj_wrap_keeps_minimum (flat : list R) (s s' : Store)
    (r : result (list R)) :
  best_is_minimum s ->
  _eldj_wrap Lindbladian clip_control_norms ans_jacobian flat pstate s
  = (s', r) ->
  best_is_minimum s'
  /\ ext_le (best_total_error (grape_result s'))
            (best_total_error (grape_result s)).
Proof.
  intros Hinv Hrun. unfold best_is_minimum in *.
  assert (Hrefl : forall b, ext_le b b).
  { intros [x|]; simpl; [lra | exact I]. }
  destruct (eldj_wrap_inv _ _ _ _ _ _ _ _ Hrun)
    as [(e & _ & ->)|[(x & e & _ & Hjac)
                     |(structured & s1 & total & raw & Hslap & Hjac)]].
  - auto.
  - destruct (jacobian_keeps _ _ _ _ Hjac) as [-> ->]. auto.
  - destruct (jacobian_keeps _ _ _ _ Hjac) as [Hres Hsaved].
    destruct (jacobian_boxes _ _ _ _ _ Hjac) as (d & it & Hbox & Hit).
    rewrite (eldj_wrap_boxed Lindbladian clip_control_norms ans_jacobian
               pstate flat s s1 structured total raw Hslap Hjac d it Hbox Hit)
      in Hrun.
    inversion Hrun; subst s' r; clear Hrun.
    rewrite <- Hres, <- Hsaved in *.
    pose proof (ext_min_le total (best_total_error (grape_result s1))) as Hle.
    unfold ext_min in Hle.
    destruct (lt_ext total (best_total_error (grape_result s1))) eqn:Hlt;
      (split;
       [ simpl; rewrite map_app; simpl map; rewrite minimum_of_snoc, <- Hinv;
         unfold ext_min; rewrite Hlt; reflexivity
       | exact Hle ]).
Qed.

(** Over any number of gradient evaluations, [best_total_error] stays the
    minimum of the total errors that were evaluated and logged. *)
Lemma gradient_evaluations_keep_minimum :
  forall (iterates : list (list R)) (s s' : Store) (r : result unit),
    best_is_minimum s ->
    gradient_evaluations Lindbladian clip_control_norms ans_jacobian iterates
      pstate s
    = (s', r) ->
    best_is_minimum s'.
Proof.
  unfold gradient_evaluations.
  induction iterates as [|flat iterates IH]; intros s s' r Hinv Hrun.
  - simpl in Hrun. inversion Hrun; subst. exact Hinv.
  - rewrite for_each_cons in Hrun. unfold mbind at 1 in Hrun.
    unfold mbind at 1 in Hrun.
    destruct (_eldj_wrap Lindbladian clip_control_norms ans_jacobian flat
                pstate s) as [s1 r1] eqn:Hwrap.
    apply (eldj_wrap_keeps_minimum flat s s1 r1 Hinv) in Hwrap.
    destruct Hwrap as [Hinv1 _].
    destruct r1 as [e|g].
    + inversion Hrun; subst. exact Hinv1.
    + unfold mret at 1 in Hrun. eapply IH; eassumption.
Qed.

End BoxedRuns.

(** ** An optimisation whose densities do not depend on the controls *)

(** Without a Hamiltonian, and with a cost that returns a float, the first
    gradient evaluation of [grape_lindblad_discrete] raises, and no result
    is returned. *)
Lemma grape_without_hamiltonian_raises :
  snd (grape_lindblad_discrete Models.get_lindbladian no_clip
         untraced_jacobian gradient_first_optimizer
         (sample_pstate 0 LINEAR [half_cost] []) empty_store)
  = inl UnboundLocalError.
Proof.
  unfold grape_lindblad_discrete, gradient_first_optimizer.
  unfold mbind at 1. unfold modify at 1.
  unfold mbind at 1. unfold modify at 1.
  unfold mbind at 1. unfold mbind at 1.
  change (on_result (fun _ => GrapeLindbladResult_init)
            (on_reporter (fun _ => set_iteration 0 Reporter_init) empty_store))
    with grape_store.
  change (strip_controls
            (complex_controls (sample_pstate 0 LINEAR [half_cost] []))
            (initial_controls (sample_pstate 0 LINEAR [half_cost] [])))
    with [1; 0].
  rewrite (eldj_wrap_plain Models.get_lindbladian no_clip untraced_jacobian
             (sample_pstate 0 LINEAR [half_cost] []) [1; 0] grape_store _
             [[mkC 1 0]] 0.5 [[C0]] eq_refl sample_jacobian [[[RtoC 1]]]
             eq_refl).
  reflexivity.
Qed.

(** ** What an evaluation leaves in the store *)

Section EvaluationFrame.

Variable Lindbladian :
  batch -> option vec -> option mat -> option (list mat) -> OperationPolicy ->
  result batch.
Variable controls : option controls_array.
Variable pstate : PState.

(** The cost calls only add to the record of calls. *)
Lemma cost_loop_frame (kind : CostKind) (system_step : Z) (densities : batch) :
  forall (cs : list (nat * Cost)) (total : R) (s s' : Store) (r : result R),
    for_each cs
      (fun '(i, cost) total_error =>
         error <~ invoke kind i cost controls densities system_step
                         (operation_policy pstate) ;;
         mret (total_error + error))
      total s = (s', r) ->
    same_objects s s'.
Proof.
  induction cs as [|[n cost] cs IH]; intros total s s' r Hrun; simpl in Hrun.
  - inversion Hrun; subst. unfold same_objects. auto.
  - unfold mbind at 1 in Hrun. unfold mbind at 1 in Hrun.
    unfold invoke at 1 in Hrun.
    destruct (call_cost cost controls densities system_step
                (operation_policy pstate)) as [e|error].
    + inversion Hrun; subst. unfold same_objects. simpl. auto.
    + unfold mret at 1 in Hrun. apply IH in Hrun.
      unfold same_objects in *. simpl in Hrun. exact Hrun.
Qed.

Lemma kept_refl (s : Store) : kept s s.
Proof. unfold kept. auto. Qed.

Lemma kept_trans (s s1 s2 : Store) : kept s s1 -> kept s1 s2 -> kept s s2.
Proof.
  unfold kept. intros (H1 & H2 & H3) (H4 & H5 & H6).
  repeat split; congruence.
Qed.

Lemma same_objects_kept (s s' : Store) : same_objects s s' -> kept s s'.
Proof.
  unfold same_objects, kept. intros (H1 & H2 & H3). rewrite H1. auto.
Qed.

Lemma system_step_body_frame (system_step : Z) (carried : batch * R)
    (s s' : Store) (r : result (batch * R)) :
  system_step_body Lindbladian controls pstate system_step carried s = (s', r) ->
  kept s s'
  /\ ((system_step =? final_system_step pstate)%Z = false ->
      reporter s' = reporter s).
Proof.
  destruct carried as [d total]. intros Hrun. unfold system_step_body in Hrun.
  unfold mbind at 1 in Hrun. unfold lift at 1 in Hrun.
  destruct (divmod system_step (system_step_multiplier pstate))
    as [e|[control_step rem]].
  { inversion Hrun; subst. split; [apply kept_refl | reflexivity]. }
  unfold mbind at 1 in Hrun. unfold lift at 1 in Hrun.
  destruct (_evolve_step_lindblad_discrete Lindbladian d (dt pstate)
              (IZR system_step * dt pstate)
              (control_step =? final_control_step pstate)%Z control_step
              controls (hamiltonian pstate) (interpolation_policy pstate)
              (lindblad_data pstate) (operation_policy pstate)) as [e|d1].
  { inversion Hrun; subst. split; [apply kept_refl | reflexivity]. }
  destruct (system_step =? final_system_step pstate)%Z;
    unfold mbind at 1 in Hrun; unfold accumulate_costs in Hrun;
    match type of Hrun with
    | (let (_, _) := ?run in _) = _ => destruct run as [s1 [e|t1]] eqn:Hcosts
    end;
    apply cost_loop_frame in Hcosts.
  - inversion Hrun; subst. split; [now apply same_objects_kept | discriminate].
  - unfold mbind, modify, mret in Hrun. simpl in Hrun.
    inversion Hrun; subst. split; [|discriminate].
    unfold same_objects in Hcosts. unfold kept. simpl.
    destruct Hcosts as (-> & -> & ->). auto.
  - inversion Hrun; subst. split; [now apply same_objects_kept|].
    intros _. apply Hcosts.
  - unfold mret in Hrun. inversion Hrun; subst.
    split; [now apply same_objects_kept|]. intros _. apply Hcosts.
Qed.

Lemma step_loop_frame :
  forall (steps : list Z) (carried : batch * R) (s s' : Store)
         (r : result (batch * R)),
    for_each steps (system_step_body Lindbladian controls pstate) carried s
    = (s', r) ->
    kept s s'.
Proof.
  induction steps as [|k steps IH]; intros carried s s' r Hrun.
  - simpl in Hrun. inversion Hrun; subst. apply kept_refl.
  - rewrite for_each_cons in Hrun. unfold mbind at 1 in Hrun.
    destruct (system_step_body Lindbladian controls pstate k carried s)
      as [s1 [e|carried1]] eqn:Hbody;
      apply system_step_body_frame in Hbody; destruct Hbody as [Hkept _].
    + inversion Hrun; subst. exact Hkept.
    + apply IH in Hrun. eapply kept_trans; eassumption.
Qed.

Lemma evaluate_frame (s s' : Store) (r : result R) :
  _evaluate_lindblad_discrete Lindbladian controls pstate s = (s', r) ->
  kept s s'.
Proof.
  unfold _evaluate_lindblad_discrete. unfold mbind at 1.
  destruct (for_each (range (final_system_step pstate + 1))
              (system_step_body Lindbladian controls pstate)
              (initial_densities pstate, 0) s) as [s1 [e|[d v]]] eqn:Hloop;
    apply step_loop_frame in Hloop; intro Hrun; inversion Hrun; subst;
    exact Hloop.
Qed.

(** The reporter after a loop that ends with the final system step. *)
Lemma step_loop_reporter :
  forall (n k : nat) (d : batch) (total : R) (s s' : Store) (d' : batch)
         (v : R),
    Z.of_nat (k + n) = final_system_step pstate ->
    densities_after Lindbladian controls pstate k = inr d ->
    for_each (map Z.of_nat (seq k (S n)))
      (system_step_body Lindbladian controls pstate) (d, total) s
    = (s', inr (d', v)) ->
    Models.final_densities (reporter s') = Some (Plain d')
    /\ Models.total_error (reporter s') = Some v.
Proof.
  induction n as [|n IH]; intros k d total s s' d' v Hfinal Hk Hrun.
  - change (map Z.of_nat (seq k 1)) with [Z.of_nat k] in Hrun.
    rewrite for_each_cons in Hrun. apply mbind_inv in Hrun.
    destruct Hrun as (s1 & [d1 t1] & Hbody & Hret).
    simpl in Hret. unfold mret in Hret. inversion Hret; subst.
    apply system_step_body_spec in Hbody; [|exact Hk].
    destruct Hbody as (_ & _ & _ & _ & _ & _ & Hrep).
    apply Hrep. rewrite <- Hfinal. f_equal. lia.
  - change (map Z.of_nat (seq k (S (S n))))
      with (Z.of_nat k :: map Z.of_nat (seq (S k) (S n))) in Hrun.
    rewrite for_each_cons in Hrun. apply mbind_inv in Hrun.
    destruct Hrun as (s1 & [d1 t1] & Hbody & Hrest).
    apply system_step_body_spec in Hbody; [|exact Hk].
    destruct Hbody as (_ & _ & _ & Hafter & _).
    apply (IH (S k) d1 t1 s1 s' d' v); try assumption.
    rewrite <- Hfinal. f_equal. lia.
Qed.

End EvaluationFrame.

(** X1. An evaluation, whether it returns or raises, leaves the iteration
    counter of the reporter, the best result and the log as they were. *)
Theorem evaluation_keeps_iteration_result_and_log :
  forall Lindbladian (controls : option controls_array) (pstate : PState)
         (s : Store),
    let s' := fst (_evaluate_lindblad_discrete Lindbladian controls pstate s) in
    Models.iteration (reporter s') = Models.iteration (reporter s)
    /\ grape_result s' = grape_result s
    /\ saved s' = saved s.
Proof.
  intros Lindbladian controls pstate s. cbv zeta.
  destruct (_evaluate_lindblad_discrete Lindbladian controls pstate s)
    as [s' r] eqn:Hrun.
  apply evaluate_frame in Hrun. exact Hrun.
Qed.

(** X2. The objective wrapper [_eld_wrap] evaluates the slapped and clipped
    controls; it raises the error of [slap_controls] without touching the
    store, and in every case it leaves the iteration counter, the best
    result and the log as they were. *)
Theorem eld_wrap_only_evaluates :
  forall Lindbladian clip_control_norms (flat : list R) (pstate : PState)
         (s : Store),
    (forall structured,
        slap_controls (complex_controls pstate) flat (controls_shape pstate)
        = inr structured ->
        _eld_wrap Lindbladian clip_control_norms flat pstate s
        = _evaluate_lindblad_discrete Lindbladian
            (Some (clip_control_norms (max_control_norms pstate) structured))
            pstate s)
    /\ (forall e,
          slap_controls (complex_controls pstate) flat (controls_shape pstate)
          = inl e ->
          _eld_wrap Lindbladian clip_control_norms flat pstate s = (s, inl e))
    /\ (let s' := fst (_eld_wrap Lindbladian clip_control_norms flat pstate s) in
        Models.iteration (reporter s') = Models.iteration (reporter s)
        /\ grape_result s' = grape_result s
        /\ saved s' = saved s).
Proof.
  intros Lindbladian clip_control_norms flat pstate s.
  unfold _eld_wrap. unfold mbind, lift.
  destruct (slap_controls (complex_controls pstate) flat
              (controls_shape pstate)) as [e|structured].
  - split; [discriminate|]. split.
    + intros e' He. now inversion He.
    + simpl. auto.
  - split.
    + intros x Hx. now inversion Hx.
    + split; [discriminate|]. cbv zeta.
      destruct (_evaluate_lindblad_discrete Lindbladian
                  (Some (clip_control_norms (max_control_norms pstate)
                           structured)) pstate s) as [s' r] eqn:Hrun.
      apply evaluate_frame in Hrun. exact Hrun.
Qed.

(** X3. The result of [evolve_lindblad_discrete] on a configuration with at
    least one system step: whenever it returns, the result holds the batch
    that the integrator produced at the final system step and the sum of the
    contributions of all cost calls. *)
Theorem evolve_result_record :
  forall Lindbladian (controls : option controls_array) (pstate : PState)
         (result : Reporter),
    (0 <= final_system_step pstate)%Z ->
    evolve_lindblad_discrete Lindbladian controls pstate = inr result ->
    exists densities,
      densities_after Lindbladian controls pstate
        (S (Z.to_nat (final_system_step pstate)))
      = inr densities
      /\ result
         = {| iteration := None;
              final_densities := Some (Plain densities);
              total_error :=
                Some (add_contributions
                        (calls_of_run Lindbladian controls pstate) 0) |}.
Proof.
  intros Lindbladian controls pstate result Hfinal Hrun.
  unfold evolve_lindblad_discrete in Hrun.
  destruct (_evaluate_lindblad_discrete Lindbladian controls pstate
              {| reporter := Reporter_init;
                 grape_result := GrapeLindbladResult_init;
                 invocations := []; saved := [] |})
    as [s' [e|total]] eqn:Heval; [discriminate|].
  inversion Hrun; subst result; clear Hrun.
  pose proof (evaluate_frame _ _ _ _ _ _ Heval) as (Hit & _ & _).
  unfold _evaluate_lindblad_discrete in Heval.
  apply mbind_inv in Heval. destruct Heval as (s1 & [d' v] & Hloop & Hret).
  unfold mret in Hret. inversion Hret; subst s1 v; clear Hret.
  unfold range in Hloop.
  replace (Z.to_nat (final_system_step pstate + 1))
    with (S (Z.to_nat (final_system_step pstate))) in Hloop by lia.
  assert (Hlast : Z.of_nat (0 + Z.to_nat (final_system_step pstate))
                  = final_system_step pstate) by (simpl; lia).
  pose proof (step_loop_reporter Lindbladian controls pstate _ 0%nat _ _ _ _
                _ _ Hlast eq_refl Hloop) as (Hfd & Hte).
  apply step_loop_spec in Hloop; [|reflexivity].
  destruct Hloop as (_ & Hv & _ & Hend & _).
  exists d'. split; [exact Hend|].
  destruct (reporter s') as [it fd te]. simpl in *. subst.
  unfold calls_of_run, range.
  replace (Z.to_nat (final_system_step pstate + 1))
    with (S (Z.to_nat (final_system_step pstate))) by lia.
  reflexivity.
Qed.

Lemma evolve_result_record_witness :
  exists densities,
    densities_after Models.get_lindbladian None
      (sample_pstate 1 LINEAR [unit_cost] [unit_cost])
      (S (Z.to_nat
            (final_system_step
               (sample_pstate 1 LINEAR [unit_cost] [unit_cost]))))
    = inr densities
    /\ reporter (fst sample_run)
       = {| iteration := None;
            final_densities := Some (Plain densities);
            total_error :=
              Some (add_contributions
                      (calls_of_run Models.get_lindbladian None
                         (sample_pstate 1 LINEAR [unit_cost] [unit_cost]))
                      0) |}.
Proof.
  apply (evolve_result_record Models.get_lindbladian None
           (sample_pstate 1 LINEAR [unit_cost] [unit_cost])
           (reporter (fst sample_run))).
  - simpl. lia.
  - reflexivity.
Defined.

(** X4. An evaluation without system steps ([final_system_step < 0]) calls
    neither the integrator nor a cost: it returns 0 and leaves the store as
    it was, so the result of [evolve_lindblad_discrete] has no final
    densities and no total error. *)
Theorem evaluation_without_system_steps :
  forall Lindbladian (controls : option controls_array) (pstate : PState)
         (s : Store),
    (final_system_step pstate < 0)%Z ->
    _evaluate_lindblad_discrete Lindbladian controls pstate s = (s, inr 0)
    /\ evolve_lindblad_discrete Lindbladian controls pstate
       = inr Reporter_init.
Proof.
  intros Lindbladian controls pstate s Hfinal.
  assert (Heval : forall s0,
    _evaluate_lindblad_discrete Lindbladian controls pstate s0 = (s0, inr 0)).
  { intro s0. unfold _evaluate_lindblad_discrete, range.
    replace (Z.to_nat (final_system_step pstate + 1)) with 0%nat by lia.
    reflexivity. }
  split; [apply Heval|].
  unfold evolve_lindblad_discrete. rewrite Heval. reflexivity.
Qed.

Lemma evaluation_without_system_steps_witness :
  _evaluate_lindblad_discrete Models.get_lindbladian None
    (sample_pstate (-1) LINEAR [unit_cost] [unit_cost]) empty_store
  = (empty_store, inr 0)
  /\ evolve_lindblad_discrete Models.get_lindbladian None
       (sample_pstate (-1) LINEAR [unit_cost] [unit_cost])
     = inr Reporter_init.
Proof.
  apply (evaluation_without_system_steps Models.get_lindbladian None
           (sample_pstate (-1) LINEAR [unit_cost] [unit_cost]) empty_store).
  simpl. lia.
Defined.

(** X5. On a program state with a system step multiplier of zero and at
    least one system step, [_evaluate_lindblad_discrete] raises
    ZeroDivisionError in the [divmod] of its first system step, before it
    integrates anything or calls a cost; the store is as it was. *)
Theorem zero_multiplier_raises :
  forall Lindbladian (controls : option controls_array) (pstate : PState)
         (s : Store),
    (0 <= final_system_step pstate)%Z ->
    system_step_multiplier pstate = 0%Z ->
    _evaluate_lindblad_discrete Lindbladian controls pstate s
    = (s, inl ZeroDivisionError).
Proof.
  intros Lindbladian controls pstate s Hfinal Hmult.
  unfold _evaluate_lindblad_discrete.
  rewrite range_succ by assumption. rewrite for_each_cons.
  unfold mbind at 1. unfold mbind at 1.
  unfold system_step_body at 1. unfold mbind at 1. unfold lift at 1.
  unfold divmod. rewrite Hmult. reflexivity.
Qed.

Lemma zero_multiplier_raises_witness :
  _evaluate_lindblad_discrete Models.get_lindbladian None
    (with_system_step_multiplier 0 (sample_pstate 0 LINEAR [] [])) empty_store
  = (empty_store, inl ZeroDivisionError).
Proof.
  apply (zero_multiplier_raises Models.get_lindbladian None
           (with_system_step_multiplier 0 (sample_pstate 0 LINEAR [] []))
           empty_store).
  - simpl. lia.
  - reflexivity.
Defined.

Section RaisingEvaluation.

Variable Lindbladian :
  batch -> option vec -> option mat -> option (list mat) -> OperationPolicy ->
  result batch.
Variable controls : option controls_array.
Variable pstate : PState.

(** A system step that raises has assigned nothing to the reporter. *)
Lemma system_step_body_raising (system_step : Z) (carried : batch * R)
    (s s' : Store) (e : PyExn) :
  system_step_body Lindbladian controls pstate system_step carried s
  = (s', inl e) ->
  reporter s' = reporter s.
Proof.
  destruct carried as [d total]. intros Hrun. unfold system_step_body in Hrun.
  unfold mbind at 1 in Hrun. unfold lift at 1 in Hrun.
  destruct (divmod system_step (system_step_multiplier pstate))
    as [e0|[control_step rem]].
  { now inversion Hrun. }
  unfold mbind at 1 in Hrun. unfold lift at 1 in Hrun.
  destruct (_evolve_step_lindblad_discrete Lindbladian d (dt pstate)
              (IZR system_step * dt pstate)
              (control_step =? final_control_step pstate)%Z control_step
              controls (hamiltonian pstate) (interpolation_policy pstate)
              (lindblad_data pstate) (operation_policy pstate)) as [e0|d1].
  { now inversion Hrun. }
  destruct (system_step =? final_system_step pstate)%Z;
    unfold mbind at 1 in Hrun; unfold accumulate_costs in Hrun;
    match type of Hrun with
    | (let (_, _) := ?run in _) = _ => destruct run as [s1 [e0|t1]] eqn:Hcosts
    end;
    apply cost_loop_frame in Hcosts.
  - inversion Hrun; subst. apply Hcosts.
  - unfold mbind, modify, mret in Hrun. simpl in Hrun. discriminate.
  - inversion Hrun; subst. apply Hcosts.
  - unfold mret in Hrun. discriminate.
Qed.

Lemma step_loop_raising :
  forall (n k : nat) (carried : batch * R) (s s' : Store) (e : PyExn),
    (Z.of_nat (k + n) <= final_system_step pstate + 1)%Z ->
    for_each (map Z.of_nat (seq k n))
      (system_step_body Lindbladian controls pstate) carried s
    = (s', inl e) ->
    reporter s' = reporter s.
Proof.
  induction n as [|n IH]; intros k carried s s' e Hbound Hrun.
  - simpl in Hrun. discriminate.
  - change (map Z.of_nat (seq k (S n)))
      with (Z.of_nat k :: map Z.of_nat (seq (S k) n)) in Hrun.
    rewrite for_each_cons in Hrun. unfold mbind at 1 in Hrun.
    destruct (system_step_body Lindbladian controls pstate (Z.of_nat k)
                carried s) as [s1 [e0|carried1]] eqn:Hbody.
    + inversion Hrun; subst. eapply system_step_body_raising; eassumption.
    + destruct (Z.eqb_spec (Z.of_nat k) (final_system_step pstate))
        as [Hfin|Hfin].
      * assert (n = 0%nat) by lia. subst n. simpl in Hrun. discriminate.
      * apply system_step_body_frame in Hbody.
        destruct Hbody as [_ Hrep].
        rewrite <- Hrep by (now apply Z.eqb_neq).
        apply (IH (S k) carried1 s1 s' e); [lia | exact Hrun].
Qed.

End RaisingEvaluation.

(** X6. An evaluation that raises, whatever the exception and wherever it
    arises, has assigned nothing to the reporter: neither final densities
    nor a total error are recorded, and the best result and the log are
    untouched. *)
Theorem raising_evaluation_records_nothing :
  forall Lindbladian (controls : option controls_array) (pstate : PState)
         (s s' : Store) (e : PyExn),
    _evaluate_lindblad_discrete Lindbladian controls pstate s = (s', inl e) ->
    reporter s' = reporter s
    /\ grape_result s' = grape_result s
    /\ saved s' = saved s.
Proof.
  intros Lindbladian controls pstate s s' e Hrun.
  pose proof (evaluate_frame _ _ _ _ _ _ Hrun) as (_ & Hres & Hsaved).
  split; [|split; assumption].
  unfold _evaluate_lindblad_discrete in Hrun. unfold mbind at 1 in Hrun.
  destruct (for_each (range (final_system_step pstate + 1))
              (system_step_body Lindbladian controls pstate)
              (initial_densities pstate, 0) s) as [s1 [e0|[d v]]] eqn:Hloop;
    [|discriminate].
  inversion Hrun; subst. unfold range in Hloop.
  destruct (Z.le_gt_cases 0 (final_system_step pstate + 1)) as [Hpos|Hneg].
  - apply step_loop_raising in Hloop; [exact Hloop|]. simpl. lia.
  - replace (Z.to_nat (final_system_step pstate + 1)) with 0%nat in Hloop
      by lia.
    simpl in Hloop. discriminate.
Qed.

Lemma raising_evaluation_records_nothing_witness :
  reporter (fst sample_raising_run) = reporter empty_store
  /\ grape_result (fst sample_raising_run) = grape_result empty_store
  /\ saved (fst sample_raising_run) = saved empty_store.
Proof.
  apply (raising_evaluation_records_nothing Models.get_lindbladian None
           (sample_pstate 0 LINEAR
              [TargetDensityInfidelity_as_cost
                 (TargetDensityInfidelity_init test_density 1)] [])
           empty_store (fst sample_raising_run) TypeError).
  apply (pair_with_snd sample_raising_run). reflexivity.
Defined.

(** ** Bounds of the control lookups *)

Lemma getitem_beyond {A : Type} (l : list A) (i : Z) :
  (Z.of_nat (length l) <= i)%Z -> getitem l i = inl IndexError.
Proof.
  intros Hi. unfold getitem.
  destruct (Z.ltb_spec i 0); [lia|].
  destruct (Z.ltb_spec i (Z.of_nat (length l))); [lia|].
  now rewrite andb_false_r.
Qed.

Lemma getitem_error {A : Type} (l : list A) (i : Z) (e : PyExn) :
  getitem l i = inl e -> e = IndexError.
Proof.
  unfold getitem.
  destruct ((0 <=? _)%Z && (_ <? _)%Z)%bool; [|intro H; now inversion H].
  destruct (nth_error l _); intro H; now inversion H.
Qed.

Lemma getitem_In {A : Type} (l : list A) (i : Z) (a : A) :
  getitem l i = inr a -> In a l.
Proof.
  unfold getitem.
  destruct ((0 <=? _)%Z && (_ <? _)%Z)%bool; [|discriminate].
  destruct (nth_error l _) as [b|] eqn:E; [|discriminate].
  intro H. inversion H; subst. eapply nth_error_In; eassumption.
Qed.

Lemma getitem_nonneg {A : Type} (l : list A) (i : Z) :
  (0 <= i < Z.of_nat (length l))%Z ->
  getitem l i = match nth_error l (Z.to_nat i) with
                | Some a => inr a
                | None => inl IndexError
                end.
Proof.
  intros Hi. unfold getitem.
  destruct (Z.ltb_spec i 0); [lia|].
  destruct (Z.leb_spec 0 i); [|lia].
  destruct (Z.ltb_spec i (Z.of_nat (length l))); [|lia].
  reflexivity.
Qed.

Lemma getitem_minus_one {A : Type} (l : list A) (d : A) :
  l <> [] -> getitem l (-1)%Z = inr (last l d).
Proof.
  intros Hne. unfold getitem.
  assert (Hlen : (0 < length l)%nat) by (destruct l; [contradiction | simpl; lia]).
  change (-1 <? 0)%Z with true. cbv iota.
  destruct (Z.leb_spec 0 (Z.of_nat (length l) + -1)); [|lia].
  destruct (Z.ltb_spec (Z.of_nat (length l) + -1) (Z.of_nat (length l)));
    [|lia].
  simpl. replace (Z.to_nat (Z.of_nat (length l) + -1))
    with (length l - 1)%nat by lia.
  clear -Hne. induction l as [|a l IH]; [contradiction|].
  destruct l as [|b l].
  - reflexivity.
  - replace (length (a :: b :: l) - 1)%nat with (S (length (b :: l) - 1))
      by (simpl; lia).
    simpl nth_error. change (last (a :: b :: l) d) with (last (b :: l) d).
    apply IH. discriminate.
Qed.

(** X7. A control lookup past the end of the control array raises
    IndexError, whatever the interpolation policy: in a step that is not
    flagged as the final control step when [control_step + 1] is not a row
    of the array, and in a step that is flagged when [control_step] is not. *)
Theorem control_lookup_out_of_range :
  forall (t1 t2 t4 : R) (control_sentinel : bool) (control_step : Z)
         (controls : controls_array) (policy : InterpolationPolicy),
    (Z.of_nat (length controls)
     <= control_step + (if control_sentinel then 0 else 1))%Z ->
    rk4_controls t1 t2 t4 control_sentinel control_step (Some controls) policy
    = inl IndexError.
Proof.
  intros t1 t2 t4 sentinel step controls policy Hlen.
  unfold rk4_controls. destruct sentinel.
  - destruct (getitem controls (step - 1)%Z) as [e|cL] eqn:HL; simpl.
    + apply getitem_error in HL. now subst.
    + rewrite getitem_beyond by lia. reflexivity.
  - destruct (getitem controls step) as [e|cL] eqn:HL; simpl.
    + apply getitem_error in HL. now subst.
    + rewrite getitem_beyond by lia. reflexivity.
Qed.

Lemma control_lookup_out_of_range_witness :
  rk4_controls 0 (1 / 2) 1 false 0%Z (Some [[RtoC 1]]) (UNSUPPORTED 0)
  = inl IndexError.
Proof.
  apply (control_lookup_out_of_range 0 (1 / 2) 1 false 0%Z [[RtoC 1]]
           (UNSUPPORTED 0)).
  simpl. lia.
Defined.

Lemma weighted_same (w : R) (c : vec) : weighted w c c = c.
Proof.
  unfold weighted. induction c as [|a c IH]; simpl; [reflexivity|].
  rewrite IH. f_equal. apply C_eq; simpl; ring.
Qed.

(** X8. At control step 0 flagged as the final control step the left
    bracketing control is [controls[-1]], the last row of the control array,
    and the right one is the first row; with a single control set all four
    stages use that control set. *)
Theorem final_control_step_zero_wraps_around :
  forall (time dt : R) (first : vec) (rest : list vec),
    dt <> 0 ->
    length (last (first :: rest) first) = length first ->
    let controls := first :: rest in
    let left := last controls first in
    rk4_controls time (time + 0.5 * dt) (time + dt) true 0%Z (Some controls)
      LINEAR
    = inr (Some left, Some (midpoint left first), Some (midpoint left first),
           Some first)
    /\ (rest = [] ->
        rk4_controls time (time + 0.5 * dt) (time + dt) true 0%Z
          (Some controls) LINEAR
        = inr (Some first, Some first, Some first, Some first)).
Proof.
  intros time dt first rest Hdt Hlen. cbv zeta.
  assert (Hpair :
    rk4_controls time (time + 0.5 * dt) (time + dt) true 0%Z
      (Some (first :: rest)) LINEAR
    = inr (Some (last (first :: rest) first),
           Some (weighted ((time + 0.5 * dt - time) / (time + dt - time))
                   (last (first :: rest) first) first),
           Some (weighted ((time + 0.5 * dt - time) / (time + dt - time))
                   (last (first :: rest) first) first),
           Some first)).
  { unfold rk4_controls. change (0 - 1)%Z with (-1)%Z.
    rewrite (getitem_minus_one (first :: rest) first) by discriminate.
    change (getitem (first :: rest) 0%Z) with (@inr PyExn vec first).
    simpl bind.
    rewrite interpolate_linear_weighted;
      [reflexivity | replace (time + dt - time) with dt by ring; exact Hdt
      | exact Hlen]. }
  assert (Hhalf : (time + 0.5 * dt - time) / (time + dt - time) = 1 / 2).
  { replace (time + 0.5 * dt - time) with (dt / 2) by lra.
    replace (time + dt - time) with dt by ring. now field. }
  split.
  - rewrite Hpair. now rewrite (weighted_half_midpoint _ _ _ Hhalf).
  - intros ->. rewrite Hpair. simpl last. now rewrite weighted_same.
Qed.

Lemma final_control_step_zero_wraps_around_witness :
  let controls := [RtoC 1] :: [[RtoC 2]; [RtoC 3]] in
  let left := last controls [RtoC 1] in
  rk4_controls 0 (0 + 0.5 * 1) (0 + 1) true 0%Z (Some controls) LINEAR
  = inr (Some left, Some (midpoint left [RtoC 1]),
         Some (midpoint left [RtoC 1]), Some [RtoC 1])
  /\ ([[RtoC 2]; [RtoC 3]] = [] ->
      rk4_controls 0 (0 + 0.5 * 1) (0 + 1) true 0%Z (Some controls) LINEAR
      = inr (Some [RtoC 1], Some [RtoC 1], Some [RtoC 1], Some [RtoC 1])).
Proof.
  apply (final_control_step_zero_wraps_around 0 1 [RtoC 1]
           [[RtoC 2]; [RtoC 3]]).
  - lra.
  - reflexivity.
Defined.

Lemma evolve_step_without_hamiltonian
    Lindbladian rho dt t sentinel step controls policy lindblad_data op :
  _evolve_step_lindblad_discrete Lindbladian rho dt t sentinel step controls
    None policy lindblad_data op
  = (_ <- rk4_controls t (t + 0.5 * dt) (t + dt) sentinel step controls
            policy ;;
     _evolve_step_lindblad_discrete Lindbladian rho dt t sentinel step None
       None policy lindblad_data op).
Proof.
  unfold _evolve_step_lindblad_discrete.
  destruct (rk4_controls t (t + 0.5 * dt) (t + dt) sentinel step controls
              policy) as [e|[[[c1 c2] c3] c4]]; reflexivity.
Qed.

(** X9. Without a Hamiltonian the control sets are looked up and
    interpolated but never used: the densities that an evaluation with a
    control array reaches after any number of system steps are the densities
    that the evaluation without a control array reaches. *)
Theorem densities_without_hamiltonian_ignore_controls :
  forall Lindbladian (controls : option controls_array) (pstate : PState)
         (n : nat) (densities : batch),
    hamiltonian pstate = None ->
    densities_after Lindbladian controls pstate n = inr densities ->
    densities_after Lindbladian None pstate n = inr densities.
Proof.
  intros Lindbladian controls pstate n. induction n as [|n IH];
    intros densities Hnone Hrun; simpl in *.
  - exact Hrun.
  - destruct (densities_after Lindbladian controls pstate n) as [e|d];
      [discriminate|].
    rewrite (IH d Hnone eq_refl). simpl in *.
    destruct (divmod (Z.of_nat n) (system_step_multiplier pstate))
      as [e|[control_step rem]]; [discriminate|]. simpl in *.
    rewrite Hnone in *. rewrite evolve_step_without_hamiltonian in Hrun.
    destruct (rk4_controls _ _ _ _ _ controls _); [discriminate|].
    exact Hrun.
Qed.

Lemma sample_densities_with_controls :
  densities_after Models.get_lindbladian (Some [[mkC 1 0]])
    (sample_pstate 0 LINEAR [] []) 1
  = inr [[[RtoC 1]]].
Proof.
  simpl. rewrite evolve_step_absent. unfold rk4_controls. simpl.
  unfold interpolate_linear.
  destruct (Req_dec_T (0 * 1 + 1 - 0 * 1) 0) as [E|_]; [exfalso; lra|].
  reflexivity.
Qed.

Lemma densities_without_hamiltonian_ignore_controls_witness :
  densities_after Models.get_lindbladian None (sample_pstate 0 LINEAR [] []) 1
  = inr [[[RtoC 1]]].
Proof.
  apply (densities_without_hamiltonian_ignore_controls Models.get_lindbladian
           (Some [[mkC 1 0]]) (sample_pstate 0 LINEAR [] []) 1 [[[RtoC 1]]]).
  - reflexivity.
  - exact sample_densities_with_controls.
Defined.

Lemma rk4_controls_linear_pair (time dt : R) (sentinel : bool) (step : Z)
    (controls : controls_array) (cL cR : vec) :
  dt <> 0 ->
  length cL = length cR ->
  (if sentinel
   then getitem controls (step - 1)%Z = inr cL /\ getitem controls step = inr cR
   else getitem controls step = inr cL /\
        getitem controls (step + 1)%Z = inr cR) ->
  rk4_controls time (time + 0.5 * dt) (time + dt) sentinel step (Some controls)
    LINEAR
  = inr (Some cL, Some (midpoint cL cR), Some (midpoint cL cR), Some cR).
Proof.
  intros Hdt Hlen Hpair.
  assert (Hhalf : (time + 0.5 * dt - time) / (time + dt - time) = 1 / 2).
  { replace (time + 0.5 * dt - time) with (dt / 2) by lra.
    replace (time + dt - time) with dt by ring. now field. }
  unfold rk4_controls.
  destruct sentinel; destruct Hpair as [-> ->]; simpl;
    (rewrite interpolate_linear_weighted;
     [ simpl; now rewrite (weighted_half_midpoint _ _ _ Hhalf)
     | replace (time + dt - time) with dt by ring; exact Hdt
     | exact Hlen ]).
Qed.

(** X10. Control sets are found in every system step of a well-formed
    schedule: with one row per control step, rows of one width, a step
    multiplier of at least 1 and a system step below
    [(final_control_step + 1) * system_step_multiplier], the lookup of the
    step raises nothing and every stage control is a row of the array or the
    midpoint of two rows. *)
Theorem controls_found_in_every_system_step :
  forall (controls : controls_array) (width : nat)
         (final_control_step multiplier system_step : Z) (dt : R),
    Forall (fun row => length row = width) controls ->
    Z.of_nat (length controls) = (final_control_step + 1)%Z ->
    (1 <= multiplier)%Z ->
    (0 <= system_step < (final_control_step + 1) * multiplier)%Z ->
    dt <> 0 ->
    let control_step := (system_step / multiplier)%Z in
    let time := IZR system_step * dt in
    exists cL cR,
      In cL controls /\ In cR controls
      /\ rk4_controls time (time + 0.5 * dt) (time + dt)
           (control_step =? final_control_step)%Z control_step (Some controls)
           LINEAR
         = inr (Some cL, Some (midpoint cL cR), Some (midpoint cL cR),
                Some cR).
Proof.
  intros controls width fcs m k dt Hrect Hrows Hm Hk Hdt. cbv zeta.
  assert (Hc0 : (0 <= k / m)%Z) by (apply Z.div_pos; lia).
  assert (Hc1 : (k / m < fcs + 1)%Z)
    by (apply Z.div_lt_upper_bound; [lia | rewrite Z.mul_comm; lia]).
  rewrite Forall_forall in Hrect.
  destruct (Z.eqb_spec (k / m) fcs) as [Heq|Hne].
  - destruct (getitem_in_range controls (k / m - 1)%Z) as [cL HL]; [lia|].
    destruct (getitem_in_range controls (k / m)%Z) as [cR HR]; [lia|].
    exists cL, cR.
    pose proof (getitem_In _ _ _ HL) as HinL.
    pose proof (getitem_In _ _ _ HR) as HinR.
    split; [exact HinL|]. split; [exact HinR|].
    apply rk4_controls_linear_pair; [exact Hdt | | split; assumption].
    rewrite (Hrect _ HinL), (Hrect _ HinR). reflexivity.
  - destruct (getitem_in_range controls (k / m)%Z) as [cL HL]; [lia|].
    destruct (getitem_in_range controls (k / m + 1)%Z) as [cR HR]; [lia|].
    exists cL, cR.
    pose proof (getitem_In _ _ _ HL) as HinL.
    pose proof (getitem_In _ _ _ HR) as HinR.
    split; [exact HinL|]. split; [exact HinR|].
    apply rk4_controls_linear_pair; [exact Hdt | | split; assumption].
    rewrite (Hrect _ HinL), (Hrect _ HinR). reflexivity.
Qed.

Lemma controls_found_in_every_system_step_witness :
  exists cL cR,
    In cL [[RtoC 1]; [RtoC 3]] /\ In cR [[RtoC 1]; [RtoC 3]]
    /\ rk4_controls (IZR 3 * 1) (IZR 3 * 1 + 0.5 * 1) (IZR 3 * 1 + 1)
         (3 / 2 =? 1)%Z (3 / 2)%Z (Some [[RtoC 1]; [RtoC 3]]) LINEAR
       = inr (Some cL, Some (midpoint cL cR), Some (midpoint cL cR), Some cR).
Proof.
  apply (controls_found_in_every_system_step [[RtoC 1]; [RtoC 3]] 1%nat 1%Z
           2%Z 3%Z 1).
  - repeat constructor.
  - reflexivity.
  - lia.
  - lia.
  - lra.
Defined.

(** ** Gradient evaluations and the best result *)

(** X11. A call of [_eldj_wrap] that returns has found boxed final
    densities and an iteration counter after the differentiated forward
    pass.  It returns the stripped gradient (conjugated first when the
    controls are complex), has called the logging collaborator exactly once,
    with the clipped controls, the unboxed densities, the total error, the
    gradient and the iteration, has advanced the iteration counter by one,
    and has overwritten all four fields of the best result when the total
    error was below the stored best and none of them otherwise. *)
Theorem eldj_wrap_returning :
  forall Lindbladian clip_control_norms ans_jacobian (flat : list R)
         (pstate : PState) (s s' : Store) (g : list R),
    _eldj_wrap Lindbladian clip_control_norms ans_jacobian flat pstate s
    = (s', inr g) ->
    exists structured s1 total raw d it,
      slap_controls (complex_controls pstate) flat (controls_shape pstate)
      = inr structured
      /\ ans_jacobian (_evaluate_lindblad_discrete Lindbladian)
           (clip_control_norms (max_control_norms pstate) structured) pstate s
         = (s1, inr (total, raw))
      /\ Models.final_densities (reporter s1) = Some (Box d)
      /\ Models.iteration (reporter s1) = Some it
      /\ let controls :=
           clip_control_norms (max_control_norms pstate) structured in
         let grads :=
           if complex_controls pstate then conjugate raw else raw in
         g = strip_controls (complex_controls pstate) grads
         /\ saved s'
            = saved s1
              ++ [{| log_controls := controls; log_final_densities := d;
                     log_total_error := total; log_grads := grads;
                     log_iteration := it |}]
         /\ Models.iteration (reporter s') = Some (it + 1)%Z
         /\ grape_result s'
            = if lt_ext total (best_total_error (grape_result s1))
              then overwritten controls d it total
              else grape_result s1.
Proof.
  intros Lindbladian clip_control_norms ans_jacobian flat pstate s s' g Hrun.
  destruct (eldj_wrap_inv _ _ _ _ _ _ _ _ Hrun)
    as [(e & He & _)|[(x & e & He & _)
                     |(structured & s1 & total & raw & Hslap & Hjac)]];
    [discriminate | discriminate |].
  destruct (Models.final_densities (reporter s1)) as [[d|d]|] eqn:Hfd.
  - rewrite (eldj_wrap_plain Lindbladian clip_control_norms ans_jacobian
               pstate flat s s1 structured total raw Hslap Hjac d Hfd) in Hrun.
    discriminate.
  - destruct (Models.iteration (reporter s1)) as [it|] eqn:Hit.
    + rewrite (eldj_wrap_boxed Lindbladian clip_control_norms ans_jacobian
                 pstate flat s s1 structured total raw Hslap Hjac d it Hfd
                 Hit) in Hrun.
      inversion Hrun; subst s' g; clear Hrun.
      exists structured, s1, total, raw, d, it.
      repeat (split; [assumption|]). cbv zeta.
      destruct (lt_ext total (best_total_error (grape_result s1)));
        repeat split; reflexivity.
    + pose proof (eldj_wrap_no_iteration Lindbladian clip_control_norms
                    ans_jacobian pstate flat s s1 structured total raw Hslap
                    Hjac d Hfd Hit) as Hraise.
      rewrite Hrun in Hraise. discriminate.
  - rewrite (eldj_wrap_no_densities Lindbladian clip_control_norms
               ans_jacobian pstate flat s s1 structured total raw Hslap Hjac
               Hfd) in Hrun.
    discriminate.
Qed.

Lemma eldj_wrap_returning_witness :
  exists structured s1 total raw d it,
    slap_controls (complex_controls (sample_pstate 0 LINEAR [] [])) [1; 0]
      (controls_shape (sample_pstate 0 LINEAR [] []))
    = inr structured
    /\ boxing_jacobian sample_raw_jacobian
         (_evaluate_lindblad_discrete Models.get_lindbladian)
         (no_clip (max_control_norms (sample_pstate 0 LINEAR [] []))
            structured)
         (sample_pstate 0 LINEAR [] []) grape_store
       = (s1, inr (total, raw))
    /\ Models.final_densities (reporter s1) = Some (Box d)
    /\ Models.iteration (reporter s1) = Some it
    /\ let controls :=
         no_clip (max_control_norms (sample_pstate 0 LINEAR [] []))
           structured in
       let grads :=
         if complex_controls (sample_pstate 0 LINEAR [] [])
         then conjugate raw else raw in
       strip_controls true (conjugate [[mkC 2 (- 3)]])
       = strip_controls (complex_controls (sample_pstate 0 LINEAR [] []))
           grads
       /\ saved (fst sample_gradient_run)
          = saved s1
            ++ [{| log_controls := controls; log_final_densities := d;
                   log_total_error := total; log_grads := grads;
                   log_iteration := it |}]
       /\ Models.iteration (reporter (fst sample_gradient_run))
          = Some (it + 1)%Z
       /\ grape_result (fst sample_gradient_run)
          = if lt_ext total (best_total_error (grape_result s1))
            then overwritten controls d it total
            else grape_result s1.
Proof.
  apply (eldj_wrap_returning Models.get_lindbladian no_clip
           (boxing_jacobian sample_raw_jacobian) [1; 0]
           (sample_pstate 0 LINEAR [] []) grape_store
           (fst sample_gradient_run)
           (strip_controls true (conjugate [[mkC 2 (- 3)]]))).
  apply (pair_with_snd sample_gradient_run). exact sample_gradient_returned.
Defined.

Section GradientWrapperStore.

Variable Lindbladian :
  batch -> option vec -> option mat -> option (list mat) -> OperationPolicy ->
  result batch.
Variable clip_control_norms : list R -> controls_array -> controls_array.
Variable ans_jacobian :
  (option controls_array -> PState -> M R) ->
  controls_array -> PState -> M (R * controls_array).
Variable pstate : PState.
Variable flat : list R.
Variable s s1 : Store.
Variable structured : controls_array.
Variable total : R.
Variable raw : controls_array.

Hypothesis Hslap :
  slap_controls (complex_controls pstate) flat (controls_shape pstate)
  = inr structured.
Hypothesis Hjacobian :
  ans_jacobian (_evaluate_lindblad_discrete Lindbladian)
    (clip_control_norms (max_control_norms pstate) structured) pstate s
  = (s1, inr (total, raw)).

(** Whatever happens after the forward pass, the stored best total error and
    the log change together or not at all. *)
Lemma eldj_wrap_best_and_log (s' : Store) (r : result (list R)) :
  _eldj_wrap Lindbladian clip_control_norms ans_jacobian flat pstate s
  = (s', r) ->
  (saved s' = saved s1
   /\ best_total_error (grape_result s') = best_total_error (grape_result s1))
  \/ (exists entry,
         log_total_error entry = total
         /\ saved s' = saved s1 ++ [entry]
         /\ best_total_error (grape_result s')
            = ext_min total (best_total_error (grape_result s1))).
Proof.
  intro Hrun.
  destruct (Models.final_densities (reporter s1)) as [[d|d]|] eqn:Hfd.
  - rewrite (eldj_wrap_plain Lindbladian clip_control_norms ans_jacobian
               pstate flat s s1 structured total raw Hslap Hjacobian d Hfd)
      in Hrun.
    inversion Hrun; subst. left.
    destruct (lt_ext total (best_total_error (grape_result s1))); auto.
  - destruct (Models.iteration (reporter s1)) as [it|] eqn:Hit.
    + rewrite (eldj_wrap_boxed Lindbladian clip_control_norms ans_jacobian
                 pstate flat s s1 structured total raw Hslap Hjacobian d it
                 Hfd Hit) in Hrun.
      inversion Hrun; subst. right. eexists. split; [|split].
      2: { destruct (lt_ext total (best_total_error (grape_result s1)));
           reflexivity. }
      * reflexivity.
      * unfold ext_min.
        destruct (lt_ext total (best_total_error (grape_result s1)));
          reflexivity.
    + left. revert Hrun. unfold _eldj_wrap.
      unfold mbind at 1. unfold lift at 1. rewrite Hslap.
      unfold mbind at 1. rewrite Hjacobian.
      unfold mbind at 1. unfold lift at 1. rewrite Hfd. simpl.
      unfold mbind, gets, modify, lift, mret. simpl.
      destruct (lt_ext total (best_total_error (grape_result s1)));
        simpl; rewrite ?Hit; simpl; intro Hrun; inversion Hrun; subst; auto.
  - rewrite (eldj_wrap_no_densities Lindbladian clip_control_norms
               ans_jacobian pstate flat s s1 structured total raw Hslap
               Hjacobian Hfd) in Hrun.
    inversion Hrun; subst. auto.
Qed.

End GradientWrapperStore.

Lemma ext_le_refl (b : ExtR) : ext_le b b.
Proof. destruct b; simpl; [lra | exact I]. Qed.

Lemma ext_le_trans (a b c : ExtR) : ext_le a b -> ext_le b c -> ext_le a c.
Proof.
  destruct a, b, c; simpl; try tauto; lra.
Qed.

Lemma boxing_jacobian_keeps jac Lindbladian controls pstate s s1 r :
  boxing_jacobian jac (_evaluate_lindblad_discrete Lindbladian) controls
    pstate s
  = (s1, r) ->
  grape_result s1 = grape_result s /\ saved s1 = saved s.
Proof.
  unfold boxing_jacobian. unfold mbind at 1.
  destruct (_evaluate_lindblad_discrete Lindbladian (Some controls) pstate s)
    as [s0 [e|total]] eqn:Heval;
    apply evaluate_frame in Heval; destruct Heval as (_ & Hres & Hsaved).
  - intro H. inversion H; subst. auto.
  - unfold mbind, modify, mret. simpl. intro H. inversion H; subst.
    simpl. auto.
Qed.

Section WrapperInvariant.

Variable Lindbladian :
  batch -> option vec -> option mat -> option (list mat) -> OperationPolicy ->
  result batch.
Variable clip_control_norms : list R -> controls_array -> controls_array.
Variable ans_jacobian :
  (option controls_array -> PState -> M R) ->
  controls_array -> PState -> M (R * controls_array).
Variable pstate : PState.

Hypothesis jacobian_keeps :
  forall controls s s1 r,
    ans_jacobian (_evaluate_lindblad_discrete Lindbladian) controls pstate s
    = (s1, r) ->
    grape_result s1 = grape_result s /\ saved s1 = saved s.

Lemma eldj_wrap_invariant (flat : list R) (s s' : Store)
    (r : result (list R)) :
  _eldj_wrap Lindbladian clip_control_norms ans_jacobian flat pstate s
  = (s', r) ->
  ext_le (best_total_error (grape_result s'))
         (best_total_error (grape_result s))
  /\ (best_is_minimum s -> best_is_minimum s').
Proof.
  intros Hrun. unfold best_is_minimum.
  destruct (eldj_wrap_inv _ _ _ _ _ _ _ _ Hrun)
    as [(e & _ & ->)|[(x & e & _ & Hjac)
                     |(structured & s1 & total & raw & Hslap & Hjac)]].
  - split; [apply ext_le_refl | auto].
  - destruct (jacobian_keeps _ _ _ _ Hjac) as [-> ->].
    split; [apply ext_le_refl | auto].
  - destruct (jacobian_keeps _ _ _ _ Hjac) as [Hres Hsaved].
    destruct (eldj_wrap_best_and_log Lindbladian clip_control_norms
                ans_jacobian pstate flat s s1 structured total raw Hslap Hjac
                s' r Hrun)
      as [[Hs Hb]|(entry & Htotal & Hs & Hb)];
      rewrite Hb, Hs, Hres, Hsaved.
    + split; [apply ext_le_refl | auto].
    + split; [apply ext_min_le|].
      intros Hinv. rewrite map_app. simpl map.
      rewrite minimum_of_snoc, Htotal, <- Hinv. reflexivity.
Qed.

Lemma eld_wrap_invariant (flat : list R) (s s' : Store) (r : result R) :
  _eld_wrap Lindbladian clip_control_norms flat pstate s = (s', r) ->
  grape_result s' = grape_result s /\ saved s' = saved s.
Proof.
  unfold _eld_wrap. unfold mbind, lift.
  destruct (slap_controls (complex_controls pstate) flat
              (controls_shape pstate)) as [e|structured].
  - intro H. inversion H; subst. auto.
  - intro H. apply evaluate_frame in H. destruct H as (_ & H1 & H2). auto.
Qed.

Lemma run_strategy_invariant (strategy : OptimizerHistory -> option OptimizerCall) :
  forall (fuel : nat) (history : OptimizerHistory) (s s' : Store)
         (r : result unit),
    run_strategy strategy fuel history
      (_eld_wrap Lindbladian clip_control_norms)
      (_eldj_wrap Lindbladian clip_control_norms ans_jacobian) pstate s
    = (s', r) ->
    ext_le (best_total_error (grape_result s'))
           (best_total_error (grape_result s))
    /\ (best_is_minimum s -> best_is_minimum s').
Proof.
  induction fuel as [|fuel IH]; intros history s s' r Hrun; simpl in Hrun.
  - inversion Hrun; subst. split; [apply ext_le_refl | auto].
  - destruct (strategy history) as [[params|params]|].
    + unfold mbind at 1 in Hrun.
      destruct (_eld_wrap Lindbladian clip_control_norms params pstate s)
        as [s1 [e|value]] eqn:Hwrap;
        apply eld_wrap_invariant in Hwrap; destruct Hwrap as [Hres Hsaved].
      * inversion Hrun; subst. rewrite Hres. split; [apply ext_le_refl|].
        unfold best_is_minimum. now rewrite Hres, Hsaved.
      * apply IH in Hrun. destruct Hrun as [Hle Hinv].
        rewrite Hres in Hle. split; [exact Hle|].
        intro H. apply Hinv. unfold best_is_minimum in *.
        now rewrite Hres, Hsaved.
    + unfold mbind at 1 in Hrun.
      destruct (_eldj_wrap Lindbladian clip_control_norms ans_jacobian params
                  pstate s) as [s1 [e|grads]] eqn:Hwrap;
        apply eldj_wrap_invariant in Hwrap; destruct Hwrap as [Hle1 Hinv1].
      * inversion Hrun; subst. auto.
      * apply IH in Hrun. destruct Hrun as [Hle Hinv].
        split; [eapply ext_le_trans; eassumption | auto].
    + inversion Hrun; subst. split; [apply ext_le_refl | auto].
Qed.

End WrapperInvariant.

Lemma grape_run_unfold Lindbladian clip_control_norms ans_jacobian strategy
    fuel pstate s :
  grape_lindblad_discrete Lindbladian clip_control_norms ans_jacobian
    (strategy_optimizer strategy fuel) pstate s
  = match
      run_strategy
        (strategy (iteration_count pstate)
           (strip_controls (complex_controls pstate) (initial_controls pstate)))
        fuel []
        (_eld_wrap Lindbladian clip_control_norms)
        (_eldj_wrap Lindbladian clip_control_norms ans_jacobian) pstate
        (on_result (fun _ => GrapeLindbladResult_init)
           (on_reporter (fun _ => set_iteration 0 Reporter_init) s))
    with
    | (s', inl e) => (s', inl e)
    | (s', inr _) => (s', inr (grape_result s'))
    end.
Proof. reflexivity. Qed.

(** X12. For every optimizer that does nothing but call the two wrappers,
    on parameters that may depend on what the wrappers returned, and for
    every differentiation capability that leaves the best result and the
    log alone: when [grape_lindblad_discrete] starts with an empty log, the
    stored [best_total_error] is at its end, returning or raising, the
    minimum of the total errors handed to the logging collaborator, and the
    result it returns is the stored one. *)
Theorem grape_best_is_minimum_of_logged :
  forall Lindbladian clip_control_norms ans_jacobian strategy (fuel : nat)
         (pstate : PState) (s : Store),
    (forall controls s0 s1 r,
        ans_jacobian (_evaluate_lindblad_discrete Lindbladian) controls pstate
          s0
        = (s1, r) ->
        grape_result s1 = grape_result s0 /\ saved s1 = saved s0) ->
    saved s = [] ->
    let run :=
      grape_lindblad_discrete Lindbladian clip_control_norms ans_jacobian
        (strategy_optimizer strategy fuel) pstate s in
    best_total_error (grape_result (fst run))
    = minimum_of (map log_total_error (saved (fst run)))
    /\ (forall result, snd run = inr result ->
          result = grape_result (fst run)).
Proof.
  intros Lindbladian clip_control_norms ans_jacobian strategy fuel pstate s
         Hkeeps Hempty. cbv zeta.
  rewrite grape_run_unfold.
  match goal with
  | |- context [run_strategy ?st ?f ?h ?o ?j ?p ?s0] =>
      destruct (run_strategy st f h o j p s0) as [s' [e|u]] eqn:Hrun;
      apply (run_strategy_invariant Lindbladian clip_control_norms
               ans_jacobian pstate Hkeeps) in Hrun;
      destruct Hrun as [_ Hinv];
      assert (Hstart : best_is_minimum s0)
        by (unfold best_is_minimum; simpl; rewrite Hempty; reflexivity);
      specialize (Hinv Hstart)
  end.
  - simpl. split; [exact Hinv | discriminate].
  - simpl. split; [exact Hinv|].
    intros result H. now inversion H.
Qed.

Lemma grape_best_is_minimum_of_logged_witness :
  let run :=
    grape_lindblad_discrete Models.get_lindbladian no_clip
      (boxing_jacobian sample_raw_jacobian)
      (strategy_optimizer one_gradient_strategy 2)
      (sample_pstate 0 LINEAR [] []) empty_store in
  best_total_error (grape_result (fst run))
  = minimum_of (map log_total_error (saved (fst run)))
  /\ (forall result, snd run = inr result -> result = grape_result (fst run)).
Proof.
  apply (grape_best_is_minimum_of_logged Models.get_lindbladian no_clip
           (boxing_jacobian sample_raw_jacobian) one_gradient_strategy 2
           (sample_pstate 0 LINEAR [] []) empty_store).
  - intros controls s0 s1 r. apply boxing_jacobian_keeps.
  - reflexivity.
Defined.

(** X13. In a call of [_eldj_wrap], returning or raising, with a
    differentiation capability that leaves the best result alone, the
    stored [best_total_error] never increases; a call of [_eld_wrap] does
    not change the best result at all. *)
Theorem best_total_error_never_increases :
  forall Lindbladian clip_control_norms ans_jacobian (pstate : PState)
         (flat : list R) (s : Store),
    (forall controls s0 s1 r,
        ans_jacobian (_evaluate_lindblad_discrete Lindbladian) controls pstate
          s0
        = (s1, r) ->
        grape_result s1 = grape_result s0 /\ saved s1 = saved s0) ->
    ext_le
      (best_total_error
         (grape_result
            (fst (_eldj_wrap Lindbladian clip_control_norms ans_jacobian flat
                    pstate s))))
      (best_total_error (grape_result s))
    /\ grape_result (fst (_eld_wrap Lindbladian clip_control_norms flat pstate s))
       = grape_result s.
Proof.
  intros Lindbladian clip_control_norms ans_jacobian pstate flat s Hkeeps.
  split.
  - destruct (_eldj_wrap Lindbladian clip_control_norms ans_jacobian flat
                pstate s) as [s' r] eqn:Hrun.
    apply (eldj_wrap_invariant Lindbladian clip_control_norms ans_jacobian
             pstate Hkeeps) in Hrun.
    apply Hrun.
  - destruct (_eld_wrap Lindbladian clip_control_norms flat pstate s)
      as [s' r] eqn:Hrun.
    apply eld_wrap_invariant in Hrun. apply Hrun.
Qed.

Lemma best_total_error_never_increases_witness :
  ext_le
    (best_total_error
       (grape_result
          (fst (_eldj_wrap Models.get_lindbladian no_clip
                  (boxing_jacobian sample_raw_jacobian) [1; 0]
                  (sample_pstate 0 LINEAR [] []) grape_store))))
    (best_total_error (grape_result grape_store))
  /\ grape_result
       (fst (_eld_wrap Models.get_lindbladian no_clip [1; 0]
               (sample_pstate 0 LINEAR [] []) grape_store))
     = grape_result grape_store.
Proof.
  apply (best_total_error_never_increases Models.get_lindbladian no_clip
           (boxing_jacobian sample_raw_jacobian)
           (sample_pstate 0 LINEAR [] []) [1; 0] grape_store).
  intros controls s0 s1 r. apply boxing_jacobian_keeps.
Defined.

(** ** The cost that stops an evaluation *)

Section StoppingCost.

Variable Lindbladian :
  batch -> option vec -> option mat -> option (list mat) -> OperationPolicy ->
  result batch.
Variable controls : option controls_array.
Variable pstate : PState.

Lemma cost_loop_stops (kind : CostKind) (system_step : Z) (densities : batch) :
  forall (cs : list (nat * Cost)) (total : R) (s s' : Store) (r : result R),
    for_each cs
      (fun '(i, cost) total_error =>
         error <~ invoke kind i cost controls densities system_step
                         (operation_policy pstate) ;;
         mret (total_error + error))
      total s = (s', r) ->
    exists calls,
      invocations s' = invocations s ++ calls
      /\ match r with
         | inr _ => Forall returned calls
         | inl e =>
             exists before last,
               calls = before ++ [last]
               /\ Forall returned before
               /\ inv_outcome last = inl e
         end.
Proof.
  induction cs as [|[n cost] cs IH]; intros total s s' r Hrun; simpl in Hrun.
  - inversion Hrun; subst. exists []. rewrite app_nil_r.
    split; [reflexivity | constructor].
  - unfold mbind at 1 in Hrun. unfold mbind at 1 in Hrun.
    unfold invoke at 1 in Hrun.
    destruct (call_cost cost controls densities system_step
                (operation_policy pstate)) as [e|error] eqn:Hcall.
    + inversion Hrun; subst. eexists. split; [reflexivity|].
      exists [], {| inv_kind := kind; inv_index := n;
                    inv_system_step := system_step;
                    inv_densities := densities; inv_outcome := inl e |}.
      simpl. split; [reflexivity|]. split; [constructor | reflexivity].
    + unfold mret at 1 in Hrun. apply IH in Hrun.
      destruct Hrun as (calls & Hinv & Hr). simpl in Hinv.
      set (call := {| inv_kind := kind; inv_index := n;
                      inv_system_step := system_step;
                      inv_densities := densities;
                      inv_outcome := inr error |}) in *.
      assert (Hret : returned call) by (exists error; reflexivity).
      exists (call :: calls). split.
      * rewrite Hinv, <- app_assoc. reflexivity.
      * destruct r as [e|v].
        -- destruct Hr as (before & last & -> & Hbefore & Hlast).
           exists (call :: before), last. simpl.
           split; [reflexivity|]. split; [constructor; assumption | exact Hlast].
        -- constructor; assumption.
Qed.

Lemma system_step_body_stops (system_step : Z) (carried : batch * R)
    (s s' : Store) (r : result (batch * R)) :
  system_step_body Lindbladian controls pstate system_step carried s = (s', r) ->
  exists calls,
    invocations s' = invocations s ++ calls
    /\ match r with
       | inr _ => Forall returned calls
       | inl e => stopped_by e calls
       end.
Proof.
  destruct carried as [d total]. intros Hrun. unfold system_step_body in Hrun.
  unfold mbind at 1 in Hrun. unfold lift at 1 in Hrun.
  destruct (divmod system_step (system_step_multiplier pstate))
    as [e|[control_step rem]].
  { inversion Hrun; subst. exists []. rewrite app_nil_r.
    split; [reflexivity|]. left. constructor. }
  unfold mbind at 1 in Hrun. unfold lift at 1 in Hrun.
  destruct (_evolve_step_lindblad_discrete Lindbladian d (dt pstate)
              (IZR system_step * dt pstate)
              (control_step =? final_control_step pstate)%Z control_step
              controls (hamiltonian pstate) (interpolation_policy pstate)
              (lindblad_data pstate) (operation_policy pstate)) as [e|d1].
  { inversion Hrun; subst. exists []. rewrite app_nil_r.
    split; [reflexivity|]. left. constructor. }
  destruct (system_step =? final_system_step pstate)%Z;
    unfold mbind at 1 in Hrun; unfold accumulate_costs in Hrun;
    match type of Hrun with
    | (let (_, _) := ?run in _) = _ => destruct run as [s1 [e|t1]] eqn:Hcosts
    end;
    apply cost_loop_stops in Hcosts; destruct Hcosts as (calls & Hinv & Hr).
  - inversion Hrun; subst. exists calls. split; [exact Hinv|]. right. exact Hr.
  - unfold mbind, modify, mret in Hrun. simpl in Hrun.
    inversion Hrun; subst. exists calls. simpl. split; assumption.
  - inversion Hrun; subst. exists calls. split; [exact Hinv|]. right. exact Hr.
  - unfold mret in Hrun. inversion Hrun; subst. exists calls.
    split; assumption.
Qed.

Lemma stopped_by_after (e : PyExn) (calls1 calls : list Invocation) :
  Forall returned calls1 -> stopped_by e calls -> stopped_by e (calls1 ++ calls).
Proof.
  intros H1 [Hall|(before & last & -> & Hbefore & Hlast)].
  - left. apply Forall_app. split; assumption.
  - right. exists (calls1 ++ before), last. rewrite app_assoc.
    split; [reflexivity|].
    split; [apply Forall_app; split; assumption | exact Hlast].
Qed.

Lemma step_loop_stops :
  forall (steps : list Z) (carried : batch * R) (s s' : Store)
         (r : result (batch * R)),
    for_each steps (system_step_body Lindbladian controls pstate) carried s
    = (s', r) ->
    exists calls,
      invocations s' = invocations s ++ calls
      /\ match r with
         | inr _ => Forall returned calls
         | inl e => stopped_by e calls
         end.
Proof.
  induction steps as [|k steps IH]; intros carried s s' r Hrun.
  - simpl in Hrun. inversion Hrun; subst. exists []. rewrite app_nil_r.
    split; [reflexivity | constructor].
  - rewrite for_each_cons in Hrun. unfold mbind at 1 in Hrun.
    destruct (system_step_body Lindbladian controls pstate k carried s)
      as [s1 [e|carried1]] eqn:Hbody;
      apply system_step_body_stops in Hbody;
      destruct Hbody as (calls1 & Hinv1 & Hr1).
    + inversion Hrun; subst. exists calls1. split; assumption.
    + apply IH in Hrun. destruct Hrun as (calls & Hinv & Hr).
      exists (calls1 ++ calls). split.
      * rewrite Hinv, Hinv1, app_assoc. reflexivity.
      * destruct r as [e|v].
        -- now apply stopped_by_after.
        -- apply Forall_app. split; assumption.
Qed.

End StoppingCost.

(** X14. A cost that raises stops the evaluation at once and its exception
    is the one the evaluation raises: in an evaluation that raises, every
    cost call before the last returned, and the last either returned too
    (the exception came from the integrator or from the step arithmetic) or
    raised the very exception of the evaluation. *)
Theorem raising_cost_stops_evaluation :
  forall Lindbladian (controls : option controls_array) (pstate : PState)
         (s s' : Store) (e : PyExn),
    _evaluate_lindblad_discrete Lindbladian controls pstate s = (s', inl e) ->
    exists calls,
      invocations s' = invocations s ++ calls /\ stopped_by e calls.
Proof.
  intros Lindbladian controls pstate s s' e Hrun.
  unfold _evaluate_lindblad_discrete in Hrun. unfold mbind at 1 in Hrun.
  destruct (for_each (range (final_system_step pstate + 1))
              (system_step_body Lindbladian controls pstate)
              (initial_densities pstate, 0) s) as [s1 [e0|[d v]]] eqn:Hloop;
    [|discriminate].
  inversion Hrun; subst. apply step_loop_stops in Hloop. exact Hloop.
Qed.

Lemma raising_cost_stops_evaluation_witness :
  exists calls,
    invocations (fst sample_raising_run) = invocations empty_store ++ calls
    /\ stopped_by TypeError calls.
Proof.
  apply (raising_cost_stops_evaluation Models.get_lindbladian None
           (sample_pstate 0 LINEAR
              [TargetDensityInfidelity_as_cost
                 (TargetDensityInfidelity_init test_density 1)] [])
           empty_store (fst sample_raising_run) TypeError).
  apply (pair_with_snd sample_raising_run). reflexivity.
Defined.
